(** * Custom structures of asyncua: a model of [asyncua/common/structures.py]

    The module turns an OPC UA binary schema (an XML document) into a list of
    [EnumType] and [Struct] descriptors, renders each descriptor as Python
    source text and executes that text in a target namespace.  This file
    embeds the descriptors, the model builder [_make_model], the two
    [get_code] renderers, the loader [_generate_python_class], the
    registration loop of [load_type_definitions] and the enumeration reader
    [_get_enum_strings], and proves properties of them. *)

From Stdlib Require Import Ascii.
From stdpp Require Import gmap strings list fin_maps pretty.

(** ** Python strings *)

Module Py.

(** The line feed written [\n] in the Python source. *)
Definition nl : string := String (Ascii.ascii_of_nat 10) EmptyString.

(** [s.startswith(p)] *)
Definition startswith (s p : string) : bool := String.prefix p s.

(** [s.endswith(p)] *)
Definition endswith (s p : string) : bool :=
  (String.length p <=? String.length s)%nat
  && String.eqb (String.substring (String.length s - String.length p) (String.length p) s) p.

(** [c in s] for a one-character [c] *)
Fixpoint contains (c : Ascii.ascii) (s : string) : bool :=
  match s with
  | EmptyString => false
  | String a s' => if Ascii.eqb a c then true else contains c s'
  end.

(** [s.split(c)] for a one-character separator: always at least one part. *)
Fixpoint split (c : Ascii.ascii) (s : string) : list string :=
  match s with
  | EmptyString => [EmptyString]
  | String a s' =>
      if Ascii.eqb a c then EmptyString :: split c s'
      else match split c s' with
           | part :: parts => String a part :: parts
           | [] => [String a EmptyString]
           end
  end.

(** [s.replace(c, "")] for a one-character [c] *)
Fixpoint remove (c : Ascii.ascii) (s : string) : string :=
  match s with
  | EmptyString => EmptyString
  | String a s' => if Ascii.eqb a c then remove c s' else String a (remove c s')
  end.

(** The values that reach an f-string in this module: [None], a [str], an
    [int], or some other object known by its [str()] text only (the
    [bytes] default of a character field, for one). *)
Inductive value : Type :=
| None_
| Str (s : string)
| Int (z : Z)
| Obj (shown : string).

(** [f"{v}"] *)
Definition format (v : value) : string :=
  match v with
  | None_ => "None"
  | Str s => s
  | Int z => pretty z
  | Obj shown => shown
  end.

(** What a name of a namespace is bound to: an imported library object, or
    a class created by executing the given source text. *)
Inductive object : Type :=
| Lib (name : string)
| Class (source : string).

(** The exceptions the module can raise. *)
Inductive exn : Type :=
| AttributeError  (* a method of [str] called on [None] *)
| TypeError       (* [":" in None] *)
| IndexError
| ExecError (code : string).  (* [exec] failed on [code]; re-raised *)

Inductive res (A : Type) : Type :=
| Ok (a : A)
| Raise (e : exn).
Arguments Ok {A} a.
Arguments Raise {A} e.

(** Sequencing: an exception skips the rest. *)
Global Instance res_ret : MRet res := λ A a, Ok a.
Global Instance res_bind : MBind res := λ A B k m,
  match m with
  | Ok a => k a
  | Raise e => Raise e
  end.

(** A [for] loop whose body may raise. *)
Fixpoint for_each {A S : Type} (body : S → A → res S) (items : list A) (s : S) : res S :=
  match items with
  | [] => Ok s
  | x :: rest => body s x ≫= for_each body rest
  end.

End Py.

(** ** The descriptors *)

Module EnumeratedValue.
Record t : Type := mk { Name : string; Value : Py.value }.

(** [EnumeratedValue.__init__] for a [str] name. *)
Definition init (name : string) (value : Py.value) : t :=
  let name := if String.eqb name "None" then "None_" else name in
  let name := Py.remove " "%char name in
  mk name value.

(** [EnumeratedValue.__init__] for whatever the caller read: on [None] the
    comparison with ["None"] is false and [name.replace] raises. *)
Definition new (name : option string) (value : Py.value) : Py.res t :=
  match name with
  | Some name => Py.Ok (init name value)
  | None => Py.Raise Py.AttributeError
  end.
End EnumeratedValue.

Module Field.
Record t : Type :=
  mk { name : string; uatype : Py.value; value : Py.value;
       array : bool; is_optional : bool }.

(** [Field.__init__] *)
Definition init (name : string) : t := mk name Py.None_ Py.None_ false false.

(** Attribute assignments. *)
Definition set_uatype (f : t) (x : Py.value) : t :=
  mk (name f) x (value f) (array f) (is_optional f).
Definition set_value (f : t) (x : Py.value) : t :=
  mk (name f) (uatype f) x (array f) (is_optional f).
Definition set_array (f : t) (x : bool) : t :=
  mk (name f) (uatype f) (value f) x (is_optional f).
Definition set_is_optional (f : t) (x : bool) : t :=
  mk (name f) (uatype f) (value f) (array f) x.
End Field.

Module EnumType.
Record t : Type :=
  mk { name : string; fields : list EnumeratedValue.t; typeid : option string }.

Definition set_fields (self : t) (fs : list EnumeratedValue.t) : t :=
  mk (name self) fs (typeid self).
Definition set_typeid (self : t) (id : string) : t :=
  mk (name self) (fields self) (Some id).
End EnumType.

Module Struct.
Record t : Type :=
  mk { name : string; fields : list Field.t; typeid : option string;
       option_counter : nat }.

Definition set_fields (self : t) (fs : list Field.t) : t :=
  mk (name self) fs (typeid self) (option_counter self).
Definition set_typeid (self : t) (id : string) : t :=
  mk (name self) (fields self) (Some id) (option_counter self).
Definition set_option_counter (self : t) (n : nat) : t :=
  mk (name self) (fields self) (typeid self) n.
End Struct.

(** An entry of [StructGenerator.model]. *)
Inductive entry : Type :=
| AnEnum (e : EnumType.t)
| AStruct (s : Struct.t).

Definition is_enum (x : entry) : bool :=
  match x with AnEnum _ => true | AStruct _ => false end.

Definition is_struct (x : entry) : bool := negb (is_enum x).

Definition entry_name (x : entry) : string :=
  match x with
  | AnEnum e => EnumType.name e
  | AStruct s => Struct.name s
  end.

(** ** XML elements, as [xml.etree.ElementTree] hands them over *)

#[warnings="-register-all"]
Inductive Element : Type :=
  Elem { tag : string; attrib : gmap string string; children : list Element }.

(** [xmlfield.get(key)] *)
Definition get (x : Element) (key : string) : option string := attrib x !! key.

(** [xmlfield.get(key, fallback)] *)
Definition get_or (x : Element) (key fallback : string) : string :=
  default fallback (attrib x !! key).

Definition value_of (o : option string) : Py.value :=
  match o with
  | Some s => Py.Str s
  | None => Py.None_
  end.

(** ** Namespaces and [exec] *)

(** [exec(code, env)] either returns or raises; both leave the dictionary
    [env] in some state, which the caller goes on sharing. *)
Inductive exec_result : Type :=
| Executed (env : gmap string Py.object)
| Failed (env : gmap string Py.object).

(** What the loader leaves behind: the target namespace, the model (whose
    structs [get_code] may have changed), and the exception if one was
    raised. *)
Record loaded : Type :=
  Loaded { namespace : gmap string Py.object; model_after : list entry;
           raised : option Py.exn }.

(** [if key not in env: env[key] = obj] *)
Definition setdefault (key : string) (obj : Py.object) (env : gmap string Py.object)
  : gmap string Py.object :=
  match env !! key with
  | Some _ => env
  | None => <[key := obj]> env
  end.

(** The block of [_generate_python_class] that adds the required libraries.
    It tests ["enum"] but binds ["IntEnum"], and ["datetime"] guards
    ["timezone"] as well, as the source does. *)
Definition add_libraries (env : gmap string Py.object) : gmap string Py.object :=
  let env := setdefault "ua" (Py.Lib "ua") env in
  let env := match env !! "datetime" with
             | Some _ => env
             | None => <["timezone" := Py.Lib "timezone"]> (<["datetime" := Py.Lib "datetime"]> env)
             end in
  let env := setdefault "uuid" (Py.Lib "uuid") env in
  let env := match env !! "enum" with
             | Some _ => env
             | None => <["IntEnum" := Py.Lib "IntEnum"]> env
             end in
  let env := setdefault "dataclass" (Py.Lib "dataclass") env in
  let env := setdefault "field" (Py.Lib "field") env in
  let env := setdefault "List" (Py.Lib "List") env in
  setdefault "Optional" (Py.Lib "Optional") env.

(** An interpreter given by a table: a source text of the table executes and
    binds its class name to the class made from it; any other text raises and
    binds nothing.  Either way [exec] has put [__builtins__] into the
    namespace first.  It stands for Python on the finitely many sources of an
    example. *)
Definition exec_table (table : list (string * string)) (code : string)
    (env : gmap string Py.object) : exec_result :=
  let env := setdefault "__builtins__" (Py.Lib "builtins") env in
  match list_find (λ row, bool_decide (row.1 = code)) table with
  | Some (_, (_, class_name)) => Executed (<[class_name := Py.Class code]> env)
  | None => Failed env
  end.

(** ** The module's functions *)

Section Structures.

(** [clean_name] and [get_default_value] come from the sibling module
    [structures104]; the functions below call them on [str] arguments
    ([get_default_value] always with [hack=True]).  [get_default_value]
    looks the type name up in [ua] and may raise on it. *)
Variable clean_name : string → string.
Variable get_default_value : string → gmap string Py.value → Py.res Py.value.

(** The builtin [exec]. *)
Variable exec : string → gmap string Py.object → exec_result.

(** Node identifiers of the server, and [NodeId.to_string]. *)
Variable NodeId : Type.
Variable to_string : NodeId → string.

(** *** Emitting source text *)

(** One member line of [EnumType.get_code]. *)
Definition enum_line (code : string) (v : EnumeratedValue.t) : string :=
  let name := clean_name (EnumeratedValue.Name v) in
  let value := EnumeratedValue.Value v in
  code +:+ ("    " +:+ name +:+ " = " +:+ Py.format value +:+ Py.nl).

Definition enum_header (name : string) : string :=
  Py.nl +:+ Py.nl +:+
  "class " +:+ name +:+ "(IntEnum):" +:+ Py.nl +:+
  Py.nl +:+
  "    '''" +:+ Py.nl +:+
  "    " +:+ name +:+ " EnumInt autogenerated from xml" +:+ Py.nl +:+
  "    '''" +:+ Py.nl +:+
  Py.nl.

(** [EnumType.get_code] *)
Definition enum_get_code (self : EnumType.t) : string :=
  fold_left enum_line (EnumType.fields self) (enum_header (EnumType.name self)).

(** The type annotation of a struct field. *)
Definition annotation (sfield : Field.t) : string :=
  let uatype := "'ua." +:+ Py.format (Field.uatype sfield) +:+ "'" in
  let uatype := if Field.array sfield then "List[" +:+ uatype +:+ "]" else uatype in
  if String.eqb uatype "List[ua.Char]" then "String" else uatype.

(** The body of the loop of [Struct.get_code]. *)
Definition struct_line (code : string) (sfield : Field.t) : string :=
  if negb (String.eqb (Field.name sfield) "SwitchField") then
    let uatype := annotation sfield in
    if Field.is_optional sfield then
      code +:+ ("    " +:+ Field.name sfield +:+ ": Optional[" +:+ uatype +:+ "] = None" +:+ Py.nl)
    else
      let uavalue := Field.value sfield in
      let uavalue :=
        match uavalue with
        | Py.Str s =>
            if Py.startswith s "ua."
            then Py.Str ("field(default_factory=lambda: " +:+ s +:+ ")")
            else uavalue
        | _ => uavalue
        end in
      code +:+ ("    " +:+ Field.name sfield +:+ ":" +:+ uatype +:+ " = "
                +:+ Py.format uavalue +:+ Py.nl)
  else code.

Definition struct_header (name : string) : string :=
  Py.nl +:+ Py.nl +:+
  "@dataclass" +:+ Py.nl +:+
  "class " +:+ name +:+ ":" +:+ Py.nl +:+
  Py.nl +:+
  "    '''" +:+ Py.nl +:+
  "    " +:+ name +:+ " structure autogenerated from xml" +:+ Py.nl +:+
  "    '''" +:+ Py.nl +:+
  Py.nl.

(** The synthetic field [get_code] makes. *)
Definition encoding_field : Field.t :=
  let field := Field.init "Encoding" in
  Field.set_uatype field (Py.Str "UInt32").

(** [Struct.get_code]: the text, and the struct as the call leaves it
    ([self.fields] is assigned when the option counter is positive). *)
Definition struct_get_code (self : Struct.t) : string * Struct.t :=
  let code := struct_header (Struct.name self) in
  let self :=
    if (0 <? Struct.option_counter self)%nat
    then Struct.set_fields self (encoding_field :: Struct.fields self)
    else self in
  (fold_left struct_line (Struct.fields self) code, self).

(** [element.get_code()] on an entry of the model. *)
Definition get_code (element : entry) : string * entry :=
  match element with
  | AnEnum e => (enum_get_code e, AnEnum e)
  | AStruct s => let '(code, s) := struct_get_code s in (code, AStruct s)
  end.

(** *** Building the model *)

(** [StructGenerator._is_array_field] *)
Definition _is_array_field (name : string) : bool :=
  if Py.startswith name "NoOf" then true
  else if Py.startswith name "__" && Py.endswith name "Length" then true
  else if Py.startswith name "#" then true
  else false.

(** [clean_name(x.get("Name"))]: [clean_name] works on a [str]; a
    missing attribute reads as [None], which has none of the [str]
    methods. *)
Definition clean_attr (o : option string) : Py.res (string * string) :=
  match o with
  | Some raw => Py.Ok (raw, clean_name raw)
  | None => Py.Raise Py.AttributeError
  end.

(** The inner loop of the first pass: one child of an enumerated type. *)
Definition enum_value_step (key : string)
    (st : EnumType.t * gmap string Py.value) (xmlfield : Element)
  : Py.res (EnumType.t * gmap string Py.value) :=
  let '(intenum, enums) := st in
  if Py.endswith (tag xmlfield) "EnumeratedValue" then
    let name := get xmlfield "Name" in
    let value := value_of (get xmlfield "Value") in
    enumvalue ← EnumeratedValue.new name value;
    mret (EnumType.set_fields intenum (EnumType.fields intenum ++ [enumvalue]),
          <[key := value]> enums)
  else mret st.

(** The first pass: one child of the root. *)
Definition enum_step (st : list entry * gmap string Py.value) (child : Element)
  : Py.res (list entry * gmap string Py.value) :=
  let '(model, enums) := st in
  if Py.endswith (tag child) "EnumeratedType" then
    '(raw, cleaned) ← clean_attr (get child "Name");
    let intenum := EnumType.mk cleaned [] None in
    '(intenum, enums) ← Py.for_each (enum_value_step raw) (children child) (intenum, enums);
    mret (model ++ [AnEnum intenum], enums)
  else mret st.

(** [_type.split(":")[1]] when the type name has a colon. *)
Definition local_type (_type : string) : Py.res string :=
  if Py.contains ":" _type then
    match Py.split ":" _type !! 1%nat with
    | Some part => Py.Ok part
    | None => Py.Raise Py.IndexError
    end
  else Py.Ok _type.

(** The inner loop of the second pass: one child of a structured type.
    The state is the local [array] and the struct under construction. *)
Definition field_step (enums : gmap string Py.value)
    (st : bool * Struct.t) (xmlfield : Element) : Py.res (bool * Struct.t) :=
  let '(array, struct) := st in
  if Py.endswith (tag xmlfield) "Field" then
    match get xmlfield "Name" with
    | None => Py.Raise Py.AttributeError
    | Some name =>
        let _clean_name := clean_name name in
        if _is_array_field name then mret (true, struct)
        else
          match get xmlfield "TypeName" with
          | None => Py.Raise Py.TypeError
          | Some _type =>
              _type ← local_type _type;
              if String.eqb _type "Bit" then mret (array, struct)
              else
                let field := Field.init _clean_name in
                let field := Field.set_uatype field (Py.Str (clean_name _type)) in
                let optional := negb (String.eqb (get_or xmlfield "SwitchField" "") "") in
                let field := if optional then Field.set_is_optional field true else field in
                let struct :=
                  if optional
                  then Struct.set_option_counter struct (Struct.option_counter struct + 1)
                  else struct in
                value ← get_default_value (clean_name _type) enums;
                let field := Field.set_value field value in
                let field :=
                  if array
                  then Field.set_value (Field.set_array field true)
                         (Py.Str "field(default_factory=list)")
                  else field in
                mret (false, Struct.set_fields struct (Struct.fields struct ++ [field]))
          end
    end
  else mret st.

(** The second pass: one child of the root. *)
Definition struct_step (enums : gmap string Py.value)
    (model : list entry) (child : Element) : Py.res (list entry) :=
  if Py.endswith (tag child) "StructuredType" then
    '(_, cleaned) ← clean_attr (get child "Name");
    let struct := Struct.mk cleaned [] None 0 in
    '(_, struct) ← Py.for_each (field_step enums) (children child) (false, struct);
    mret (model ++ [AStruct struct])
  else mret model.

(** [StructGenerator._make_model], on [self.model]. *)
Definition _make_model (root : Element) (model : list entry) : Py.res (list entry) :=
  '(model, enums) ← Py.for_each enum_step (children root) (model, ∅);
  Py.for_each (struct_step enums) (children root) model.

(** [StructGenerator.set_typeid] *)
Fixpoint set_typeid (model : list entry) (name typeid : string) : list entry :=
  match model with
  | [] => []
  | struct :: rest =>
      if String.eqb (entry_name struct) name then
        match struct with
        | AnEnum e => AnEnum (EnumType.set_typeid e typeid) :: rest
        | AStruct s => AStruct (Struct.set_typeid s typeid) :: rest
        end
      else struct :: set_typeid rest name typeid
  end.

(** *** Loading the generated text *)

(** The loop of [_generate_python_class]: classes are generated one by
    one and added to [env]; the first failure is logged and re-raised. *)
Fixpoint exec_each (model : list entry) (env : gmap string Py.object) : loaded :=
  match model with
  | [] => Loaded env [] None
  | element :: rest =>
      let '(code, element) := get_code element in
      match exec code env with
      | Executed env =>
          let r := exec_each rest env in
          Loaded (namespace r) (element :: model_after r) (raised r)
      | Failed env => Loaded env (element :: rest) (Some (Py.ExecError code))
      end
  end.

(** [_generate_python_class(model, env)]; [ua_dict] is [ua.__dict__],
    the namespace used when [env] is [None]. *)
Definition _generate_python_class (model : list entry)
    (env : option (gmap string Py.object)) (ua_dict : gmap string Py.object) : loaded :=
  let env := match env with
             | None => ua_dict
             | Some env => env
             end in
  exec_each model (add_libraries env).

(** *** Registering the classes of a node *)

(** A browse result: [desc.BrowseName.Name] and [desc.NodeId]. *)
Record Description : Type := Desc { BrowseName : string; Id : NodeId }.

(** What the loop does to the world outside: a warning of the logger, or a
    call of [ua.register_extension_object]. *)
Inductive effect : Type :=
| Warning (message : string)
| Register (name : string) (nodeid : NodeId) (class : Py.object).

(** The server's answer to [get_references(refs=HasDescription,
    direction=Inverse)] on the node of a description. *)
Variable get_references : NodeId → list Description.

(** The body of the loop over [node.get_children_descriptions()] in
    [load_type_definitions].  The state is the generator's model and the
    effects so far. *)
Definition register_child (structs_dict : gmap string Py.object)
    (st : list entry * list effect) (ndesc : Description) : list entry * list effect :=
  let '(model, effects) := st in
  let ref_desc_list := get_references (Id ndesc) in
  match ref_desc_list with
  | [] => st
  | first :: _ =>
      let name := clean_name (BrowseName ndesc) in
      match structs_dict !! name with
      | None =>
          (model,
           effects ++ [Warning (name +:+ " is found as child of binary definition node but is not found in xml")])
      | Some class =>
          let nodeid := Id first in
          (set_typeid model name (to_string nodeid),
           effects ++ [Register name nodeid class])
      end
  end.

Definition register_children (structs_dict : gmap string Py.object)
    (ndescs : list Description) (st : list entry * list effect)
  : list entry * list effect :=
  fold_left (register_child structs_dict) ndescs st.

(** *** Enumerations read from the server *)

(** [enumerate(val)], counting from [idx]. *)
Fixpoint enumerate {A : Type} (idx : nat) (val : list A) : list (nat * A) :=
  match val with
  | [] => []
  | x :: rest => (idx, x) :: enumerate (S idx) rest
  end.

(** A list comprehension whose element expression may raise. *)
Fixpoint comprehension {A B : Type} (f : A → Py.res B) (l : list A) : Py.res (list B) :=
  match l with
  | [] => Py.Ok []
  | x :: rest =>
      y ← f x;
      ys ← comprehension f rest;
      mret (y :: ys)
  end.

(** [_get_enum_strings(name, node)], given the value read from the node:
    the [Text] of each localized text, [None] when it has none. *)
Definition _get_enum_strings (name : string) (val : list (option string))
  : Py.res EnumType.t :=
  let c := EnumType.mk (clean_name name) [] None in
  fields ← comprehension
              (λ '(idx, st), EnumeratedValue.new st (Py.Int (Z.of_nat idx)))
              (enumerate 0 val);
  mret (EnumType.set_fields c fields).

(** *** Reading the raw declarations *)

(** How the second pass treats a child of a structured type that it reads
    without raising. *)
Definition is_Field (x : Element) : bool := Py.endswith (tag x) "Field".

Definition is_marker (x : Element) : bool :=
  is_Field x &&
  match get x "Name" with
  | Some name => _is_array_field name
  | None => false
  end.

(** The declared type after the namespace prefix is stripped. *)
Definition resolved_type (x : Element) : option string :=
  match get x "TypeName" with
  | Some _type =>
      match local_type _type with
      | Py.Ok t => Some t
      | Py.Raise _ => None
      end
  | None => None
  end.


(** A field the second pass materializes. *)
Definition is_real (x : Element) : bool :=
  is_Field x && negb (is_marker x)
  && match get x "Name", resolved_type x with
     | Some _, Some t => negb (String.eqb t "Bit")
     | _, _ => false
     end.

(** A child of a structured type that the second pass reads without
    raising: no field declaration, or one with a name that is a marker or
    comes with a type name. *)
Definition field_well_formed (x : Element) : bool :=
  negb (is_Field x)
  || match get x "Name" with
     | Some name => _is_array_field name || bool_decide (is_Some (get x "TypeName"))
     | None => false
     end.

(** A child of a structured type for which the second pass gets a default
    value, when it asks for one: it asks for every real declaration, also
    for one it reads in array mode, and [get_default_value] may raise. *)
Definition default_resolved (enums : gmap string Py.value) (x : Element) : bool :=
  negb (is_real x)
  || match resolved_type x with
     | Some t =>
         match get_default_value (clean_name t) enums with
         | Py.Ok _ => true
         | Py.Raise _ => false
         end
     | None => false
     end.

Definition defaults_resolved (enums : gmap string Py.value) (child : Element) : bool :=
  if Py.endswith (tag child) "StructuredType"
  then forallb (default_resolved enums) (children child)
  else true.

(** A child of an enumerated type that the first pass reads without
    raising. *)
Definition enum_value_well_formed (x : Element) : bool :=
  negb (Py.endswith (tag x) "EnumeratedValue") || bool_decide (is_Some (get x "Name")).

(** A child of the root that both passes read without raising. *)
Definition type_well_formed (child : Element) : bool :=
  (if Py.endswith (tag child) "EnumeratedType"
   then bool_decide (is_Some (get child "Name"))
        && forallb enum_value_well_formed (children child)
   else true)
  && (if Py.endswith (tag child) "StructuredType"
      then bool_decide (is_Some (get child "Name"))
           && forallb field_well_formed (children child)
      else true).

End Structures.

Arguments Desc {NodeId} BrowseName Id.
Arguments BrowseName {NodeId} d.
Arguments Id {NodeId} d.
Arguments Warning {NodeId} message.
Arguments Register {NodeId} name nodeid class.

(** ** The rest of the generator, and the readers of the server *)

Section Generator.

Variable clean_name : string → string.
Variable exec : string → gmap string Py.object → exec_result.
Variable NodeId : Type.

(** One step of the loop of [_make_registration]: enums need no
    registration. *)
Definition registration_line (code : string) (struct : entry) : string :=
  match struct with
  | AnEnum _ => code
  | AStruct s =>
      code +:+ ("ua.register_extension_object('" +:+ Struct.name s +:+ "',"
                +:+ " ua.NodeId.from_string('" +:+ Py.format (value_of (Struct.typeid s))
                +:+ "'), " +:+ Struct.name s +:+ ")" +:+ Py.nl)
  end.

(** [StructGenerator._make_registration] *)
Definition _make_registration (model : list entry) : string :=
  fold_left registration_line model (Py.nl +:+ Py.nl).

(** The text [StructGenerator._make_header] writes. *)
Definition _make_header : string :=
  Py.nl +:+
  "'''" +:+ Py.nl +:+
  "THIS FILE IS AUTOGENERATED, DO NOT EDIT!!!" +:+ Py.nl +:+
  "'''" +:+ Py.nl +:+
  Py.nl +:+
  "from datetime import datetime, timezone" +:+ Py.nl +:+
  "import uuid" +:+ Py.nl +:+
  "from dataclasses import dataclass, field" +:+ Py.nl +:+
  "from typing import List, Union, Optional" +:+ Py.nl +:+
  "from enum import IntEnum" +:+ Py.nl +:+
  Py.nl +:+
  "from asyncua import ua" +:+ Py.nl.

(** The loop of [save_to_file] that writes [struct.get_code()] for each
    entry: the text of the file so far, and the model as the calls of
    [get_code] leave it. *)
Fixpoint write_codes (model : list entry) (file : string) : string * list entry :=
  match model with
  | [] => (file, [])
  | struct :: rest =>
      let '(code, struct) := get_code clean_name struct in
      let '(file, rest) := write_codes rest (file +:+ code) in
      (file, struct :: rest)
  end.

(** [StructGenerator.save_to_file(path, register)]: the content of the file
    (opened with ["w+"], so it holds what this call writes and nothing
    else) and the model afterwards. *)
Definition save_to_file (model : list entry) (register : bool) : string * list entry :=
  let _file := _make_header in
  let '(_file, model) := write_codes model _file in
  let _file := if register then _file +:+ _make_registration model else _file in
  (_file, model).

(** [StructGenerator.get_python_classes(env)] *)
Definition get_python_classes (model : list entry) (env : option (gmap string Py.object))
    (ua_dict : gmap string Py.object) : loaded :=
  _generate_python_class clean_name exec model env ua_dict.

(** [_get_enum_values(name, node)], given the value read from the node:
    for each [EnumValueType] its [DisplayName.Text] and its [Value]. *)
Definition _get_enum_values (name : string) (val : list (option string * Z))
  : Py.res EnumType.t :=
  let c := EnumType.mk (clean_name name) [] None in
  fields ← comprehension (λ '(text, value), EnumeratedValue.new text (Py.Int value)) val;
  mret (EnumType.set_fields c fields).

(** What [load_enums] tells the logger. *)
Inductive log_record : Type :=
| AlreadyKnown (enum_name : string)
| UnexpectedChild (desc child_desc : Description NodeId).

(** The server as [load_enums] sees it: the subtypes of the enumeration
    data type, the properties of a node, and the value of a property node
    read as a list of localized texts or as a list of enumeration values. *)
Variable enum_data_types : list (Description NodeId).
Variable get_properties : NodeId → list (Description NodeId).
Variable read_strings : NodeId → list (option string).
Variable read_values : NodeId → list (option string * Z).

(** The inner loop of [load_enums], over the properties of one enumeration
    node: [c] and the log. *)
Definition property_step (desc : Description NodeId)
    (st : option EnumType.t * list log_record) (child_desc : Description NodeId)
  : Py.res (option EnumType.t * list log_record) :=
  let '(c, log) := st in
  let enum_name := BrowseName desc in
  if String.eqb (BrowseName child_desc) "EnumStrings" then
    c ← _get_enum_strings clean_name enum_name (read_strings (Id child_desc));
    mret (Some c, log)
  else if String.eqb (BrowseName child_desc) "EnumValues" then
    c ← _get_enum_values enum_name (read_values (Id child_desc));
    mret (Some c, log)
  else mret (c, log ++ [UnexpectedChild desc child_desc]).

(** The outer loop of [load_enums]: [hasattr(ua, enum_name)] is read off
    [ua.__dict__]. *)
Definition enum_type_step (force : bool) (ua_dict : gmap string Py.object)
    (st : list entry * list log_record) (desc : Description NodeId)
  : Py.res (list entry * list log_record) :=
  let '(model, log) := st in
  let enum_name := BrowseName desc in
  if negb force && bool_decide (is_Some (ua_dict !! enum_name)) then
    mret (model, log ++ [AlreadyKnown enum_name])
  else
    '(c, log) ← Py.for_each (property_step desc) (get_properties (Id desc)) (None, log);
    match c with
    | Some c => mret (model ++ [AnEnum c], log)
    | None => mret (model, log)
    end.

(** [load_enums(server, env, force)] *)
Definition load_enums (env : option (gmap string Py.object)) (force : bool)
    (ua_dict : gmap string Py.object) : Py.res (loaded * list log_record) :=
  '(model, log) ← Py.for_each (enum_type_step force ua_dict) enum_data_types ([], []);
  mret (_generate_python_class clean_name exec model env ua_dict, log).

End Generator.

Arguments AlreadyKnown {NodeId} enum_name.
Arguments UnexpectedChild {NodeId} desc child_desc.

(** An entry with its [typeid] forgotten. *)
Definition forget_typeid (x : entry) : entry :=
  match x with
  | AnEnum e => AnEnum (EnumType.mk (EnumType.name e) (EnumType.fields e) None)
  | AStruct s =>
      AStruct (Struct.mk (Struct.name s) (Struct.fields s) None (Struct.option_counter s))
  end.

(** The [typeid] of an entry. *)
Definition entry_typeid (x : entry) : option string :=
  match x with
  | AnEnum e => EnumType.typeid e
  | AStruct s => Struct.typeid s
  end.

(** The names [add_libraries] may bind. *)
Definition library_names : list string :=
  ["ua"; "datetime"; "timezone"; "uuid"; "IntEnum"; "dataclass"; "field"; "List"; "Optional"].

(** [n] calls of [get_code] on a struct, one after the other. *)
Definition get_code_times (n : nat) (self : Struct.t) : Struct.t :=
  Nat.iter n (λ s, (struct_get_code s).2) self.

(** The children of an enumerated type that the first pass reads. *)
Definition is_EnumeratedValue (x : Element) : bool :=
  Py.endswith (tag x) "EnumeratedValue".

(** ** Data for the examples *)

(** An element written with its attributes in a list. *)
Definition xml (tag : string) (attributes : list (string * string))
    (children : list Element) : Element :=
  Elem tag (list_to_map attributes) children.

(** [clean_name] on the names of the examples: each of them is an
    identifier and no keyword, and is left as it is. *)
Definition clean_identifier (name : string) : string := name.

(** A default value for the examples, as for an integer type. *)
Definition default_zero (uatype : string) (enums : gmap string Py.value)
  : Py.res Py.value :=
  Py.Ok (Py.Str "0").

(** [Line {NoOfPoints, Points: Double, X: Double}] *)
Definition NoOfPoints_field : Element :=
  xml "opc:Field" [("Name", "NoOfPoints"); ("TypeName", "opc:Int32")] [].

Definition Points_field : Element :=
  xml "opc:Field" [("Name", "Points"); ("TypeName", "opc:Double")] [].

Definition X_field : Element :=
  xml "opc:Field" [("Name", "X"); ("TypeName", "opc:Double")] [].

Definition Line_children : list Element := [NoOfPoints_field; Points_field; X_field].

Definition Line_struct : Struct.t :=
  Struct.mk "Line"
    [ Field.mk "Points" (Py.Str "Double") (Py.Str "field(default_factory=list)") true false;
      Field.mk "X" (Py.Str "Double") (Py.Str "0") false false ]
    None 0.

(** [Flag {Filler: Bit, Value: Int32}] *)
Definition Filler_field : Element :=
  xml "opc:Field" [("Name", "Filler"); ("TypeName", "opc:Bit")] [].

Definition Flag_type : Element :=
  xml "opc:StructuredType" [("Name", "Flag")]
    [ Filler_field;
      xml "opc:Field" [("Name", "Value"); ("TypeName", "opc:Int32")] [] ].

Definition Flag_struct : Struct.t :=
  Struct.mk "Flag" [Field.mk "Value" (Py.Str "Int32") (Py.Str "0") false false] None 0.

(** [Color {Red = 0, Green = 1}] *)
Definition Color_type : Element :=
  xml "opc:EnumeratedType" [("Name", "Color")]
    [ xml "opc:EnumeratedValue" [("Name", "Red"); ("Value", "0")] [];
      xml "opc:EnumeratedValue" [("Name", "Green"); ("Value", "1")] [] ].

Definition Color_enum : EnumType.t :=
  EnumType.mk "Color"
    [EnumeratedValue.mk "Red" (Py.Str "0"); EnumeratedValue.mk "Green" (Py.Str "1")]
    None.

(** A document that declares the struct before the enumeration. *)
Definition Flag_Color_document : Element :=
  xml "opc:TypeDictionary" [] [Flag_type; Color_type].

(** A struct with two optional fields. *)
Definition Options_struct : Struct.t :=
  Struct.mk "Options"
    [ Field.mk "A" (Py.Str "Int32") (Py.Str "0") false true;
      Field.mk "B" (Py.Str "Int32") (Py.Str "0") false true ]
    None 2.

(** An enumeration whose member was declared without a [Value]: its text
    reads [A = None], which [IntEnum] refuses. *)
Definition Broken_enum : EnumType.t :=
  EnumType.mk "Broken" [EnumeratedValue.mk "A" Py.None_] None.

(** Python on the texts of [Color_enum] and [Broken_enum]: the first
    defines [Color], the second raises. *)
Definition exec_Color : string → gmap string Py.object → exec_result :=
  exec_table [(enum_get_code clean_identifier Color_enum, "Color")].

(** A node with two children, numbered 1 and 2: [Extra], which the schema
    does not declare, and [Flag]; each has one description reference. *)
Definition example_children : list (Description nat) := [Desc "Extra" 1; Desc "Flag" 2].

Definition example_references (id : nat) : list (Description nat) :=
  match id with
  | 1 => [Desc "Default Binary" 11]
  | 2 => [Desc "Default Binary" 12]
  | _ => []
  end.

Definition example_structs_dict : gmap string Py.object :=
  {[ "Flag" := Py.Class (struct_get_code Flag_struct).1 ]}.

(** A structured type with one optional field, and the struct the second
    pass builds from it. *)
Definition Switch_type : Element :=
  xml "opc:StructuredType" [("Name", "Switch")]
    [ xml "opc:Field" [("Name", "A"); ("TypeName", "opc:Int32"); ("SwitchField", "ASpecified")] [];
      xml "opc:Field" [("Name", "B"); ("TypeName", "opc:Int32")] [] ].

Definition Switch_struct : Struct.t :=
  Struct.mk "Switch"
    [ Field.mk "A" (Py.Str "Int32") (Py.Str "0") false true;
      Field.mk "B" (Py.Str "Int32") (Py.Str "0") false false ]
    None 1.

(** Python on the texts of [Color_enum] and [Options_struct], which it
    executes, and on any other text, which it refuses. *)
Definition exec_Color_Options : string → gmap string Py.object → exec_result :=
  exec_table [ (enum_get_code clean_identifier Color_enum, "Color");
               ((struct_get_code Options_struct).1, "Options") ].

(** ** The load is all or nothing: the property as the specification has it *)

(** After a failed call the target namespace binds every name of the model
    as it did before the call. *)
Definition atomic_load (clean_name : string → string)
    (exec : string → gmap string Py.object → exec_result) : Prop :=
  ∀ (model : list entry) (env : gmap string Py.object) (x : entry),
    let r := _generate_python_class clean_name exec model (Some env) ∅ in
    is_Some (raised r) → x ∈ model →
    namespace r !! entry_name x = env !! entry_name x.

(** The fields of a list for which [Struct.get_code] emits a line: those
    not named [SwitchField]. *)
Definition emitted_fields (fields : list Field.t) : list Field.t :=
  filter (λ f, Field.name f ≠ "SwitchField") fields.

(** ** One field [Encoding]: the property as the specification has it *)



(** ** A mismatch is logged: the property as the specification has it *)

(** A descriptor whose name the type map does not know is skipped after
    logging: the step of the registration loop leaves the model as it is
    and adds one warning. *)
Definition mismatch_logged {NodeId : Type} (clean_name : string → string)
    (to_string : NodeId → string)
    (get_references : NodeId → list (Description NodeId)) : Prop :=
  ∀ (structs_dict : gmap string Py.object) (d : Description NodeId)
    (st : list entry * list (effect NodeId)),
    structs_dict !! clean_name (BrowseName d) = None →
    ∃ message,
      register_child clean_name NodeId to_string get_references structs_dict st d
      = (st.1, st.2 ++ [Warning message]).

(** ** The sanitizer of names *)

(** Modelled from the spec: [clean_name] of the sibling module
    [structures104], which is not among the sources.  The specification
    says that names are sanitized to valid identifiers, with no spaces and
    no reserved words, before they are used for a type or a member: a
    declared member or field named [None] is renamed to a non-colliding
    identifier, and names containing spaces have the spaces removed.  The
    spaces are removed first, so that no name comes out as [None]; the
    identifier for [None] is [None_], the one [EnumeratedValue.__init__]
    uses. *)
Definition clean_name_spec (name : string) : string :=
  let name := Py.remove " "%char name in
  if String.eqb name "None" then "None_" else name.

(** * Properties *)

Section Properties.

Variable clean_name : string → string.
Variable get_default_value : string → gmap string Py.value → Py.res Py.value.
Variable exec : string → gmap string Py.object → exec_result.

(** ** Strings *)

Lemma str_app_cons (a : Ascii.ascii) (s t : string) : String a s +:+ t = String a (s +:+ t).
Proof. reflexivity. Qed.

Lemma str_app_empty_l (s : string) : "" +:+ s = s.
Proof. reflexivity. Qed.

Lemma str_app_empty_r (s : string) : s +:+ "" = s.
Proof. induction s as [|a s IH]; [done|]. by rewrite str_app_cons, IH. Qed.

Lemma str_app_assoc (s t u : string) : (s +:+ t) +:+ u = s +:+ (t +:+ u).
Proof. induction s as [|a s IH]; [done|]. by rewrite !str_app_cons, IH. Qed.


Lemma str_length_app (s t : string) :
  String.length (s +:+ t) = (String.length s + String.length t)%nat.
Proof. induction s as [|a s IH]; [done|]. rewrite str_app_cons. simpl. by rewrite IH. Qed.

Lemma contains_remove (c : Ascii.ascii) (s : string) : Py.contains c (Py.remove c s) = false.
Proof.
  induction s as [|a s IH]; [done|]. simpl.
  destruct (Ascii.eqb a c) eqn:E; [done|]. simpl. by rewrite E.
Qed.

Lemma remove_fixed (c : Ascii.ascii) (s : string) :
  Py.contains c s = false → Py.remove c s = s.
Proof.
  induction s as [|a s IH]; [done|]. simpl.
  destruct (Ascii.eqb a c); [done|]. intros H. by rewrite IH.
Qed.

Lemma remove_filter (c : Ascii.ascii) (s : string) :
  String.list_ascii_of_string (Py.remove c s) = filter (λ a, a ≠ c) (String.list_ascii_of_string s).
Proof.
  induction s as [|a s IH]; [done|]. simpl.
  destruct (Ascii.eqb_spec a c) as [->|Hne].
  - rewrite filter_cons_False; [done|]. by intros H.
  - rewrite filter_cons_True; [|done]. simpl. by rewrite IH.
Qed.

(** ** Enumerated values *)

Lemma remove_remove (c : Ascii.ascii) (s : string) :
  Py.remove c (Py.remove c s) = Py.remove c s.
Proof. apply remove_fixed, contains_remove. Qed.

Lemma clean_name_spec_not_None (name : string) : clean_name_spec name ≠ "None".
Proof.
  unfold clean_name_spec.
  destruct (String.eqb_spec (Py.remove " " name) "None") as [_|Hne]; [discriminate | done].
Qed.

Lemma clean_name_spec_no_space (name : string) :
  Py.contains " " (clean_name_spec name) = false.
Proof.
  unfold clean_name_spec.
  destruct (String.eqb (Py.remove " " name) "None"); [reflexivity | apply contains_remove].
Qed.

(** ** Enumerations read as a list of strings *)

Lemma enum_strings_fields (idx : nat) (strs : list string) :
  comprehension (λ '(i, st), EnumeratedValue.new st (Py.Int (Z.of_nat i)))
    (enumerate idx (Some <$> strs))
  = Py.Ok (imap (λ i st, EnumeratedValue.init st (Py.Int (Z.of_nat (idx + i)))) strs).
Proof.
  revert idx. induction strs as [|s strs IH]; intros idx; [done|].
  simpl. rewrite IH. simpl. unfold mret, Py.res_ret. do 2 f_equal.
  - by rewrite Nat.add_0_r.
  - apply imap_ext. intros i x _. simpl. do 3 f_equal. lia.
Qed.

(** C9. Read from a list of strings, the enumeration has one member per
    string, in the order of the list, and the value of each member is the
    index of its string in the list, counted from 0. *)
Theorem enum_strings_ordinal (name : string) (strs : list string) :
  ∃ c : EnumType.t,
    _get_enum_strings clean_name name (Some <$> strs) = Py.Ok c
    ∧ EnumType.name c = clean_name name
    ∧ length (EnumType.fields c) = length strs
    ∧ EnumType.fields c
      = imap (λ idx st, EnumeratedValue.init st (Py.Int (Z.of_nat idx))) strs
    ∧ ∀ (idx : nat) (st : string),
        strs !! idx = Some st →
        ∃ v, EnumType.fields c !! idx = Some v
             ∧ EnumeratedValue.Value v = Py.Int (Z.of_nat idx)
             ∧ EnumeratedValue.Name v
               = EnumeratedValue.Name (EnumeratedValue.init st Py.None_).
Proof.
  eexists. unfold _get_enum_strings. rewrite enum_strings_fields. simpl.
  split; [reflexivity|]. simpl. split_and!.
  - done.
  - by rewrite length_imap.
  - done.
  - intros idx st Hst. eexists. rewrite list_lookup_imap, Hst. simpl. done.
Qed.

(** ** The text of a struct *)

Lemma annotation_quoted (f : Field.t) :
  annotation f
  = if Field.array f
    then "List['ua." +:+ Py.format (Field.uatype f) +:+ "']"
    else "'ua." +:+ Py.format (Field.uatype f) +:+ "'".
Proof.
  unfold annotation. destruct (Field.array f).
  - repeat (rewrite ?str_app_cons, ?str_app_empty_l, ?str_app_assoc). simpl. reflexivity.
  - repeat (rewrite ?str_app_cons, ?str_app_empty_l). simpl. reflexivity.
Qed.

(** C3, as the code has it.  The element type is put in quotes before the
    comparison with [List[ua.Char]], so the comparison never holds: an array
    of [Char] is annotated [List['ua.Char']], and no field at all is
    annotated [String]. *)
Theorem char_array_annotation :
  annotation (Field.mk "Text" (Py.Str "Char") (Py.Obj "b''") true false) = "List['ua.Char']"
  ∧ ∀ f : Field.t, annotation f ≠ "String".
Proof.
  split; [reflexivity|]. intros f. rewrite annotation_quoted.
  destruct (Field.array f); rewrite !str_app_cons; discriminate.
Qed.

Lemma struct_line_app (code : string) (f : Field.t) :
  struct_line code f = code +:+ struct_line "" f.
Proof.
  unfold struct_line. destruct (negb _); [|by rewrite str_app_empty_r].
  destruct (Field.is_optional f); by rewrite str_app_empty_l.
Qed.

Lemma struct_line_SwitchField (f : Field.t) :
  Field.name f = "SwitchField" → struct_line "" f = "".
Proof. intros H. unfold struct_line. by rewrite H. Qed.

Lemma concat_cons (line : string) (lines : list string) :
  String.concat "" (line :: lines) = line +:+ String.concat "" lines.
Proof. destruct lines; simpl; [by rewrite str_app_empty_r | reflexivity]. Qed.

Lemma struct_lines_concat (fs : list Field.t) (code : string) :
  fold_left struct_line fs code = code +:+ String.concat "" (struct_line "" <$> fs).
Proof.
  revert code. induction fs as [|f fs IH]; intros code.
  - simpl. by rewrite str_app_empty_r.
  - rewrite fmap_cons, concat_cons. simpl. by rewrite IH, struct_line_app, str_app_assoc.
Qed.

Lemma struct_lines_emitted (fs : list Field.t) :
  String.concat "" (struct_line "" <$> fs)
  = String.concat "" (struct_line "" <$> emitted_fields fs).
Proof.
  unfold emitted_fields. induction fs as [|f fs IH]; [done|].
  rewrite fmap_cons, concat_cons.
  destruct (decide (Field.name f = "SwitchField")) as [Heq|Hne].
  - rewrite filter_cons_False by (intros H; by apply H).
    by rewrite struct_line_SwitchField.
  - rewrite filter_cons_True by done. by rewrite fmap_cons, concat_cons, IH.
Qed.

(** The text and the struct a call of [get_code] leaves, for a positive
    option counter. *)
Lemma struct_get_code_positive (self : Struct.t) :
  0 < Struct.option_counter self →
  struct_get_code self
  = (struct_header (Struct.name self)
     +:+ String.concat ""
           (struct_line "" <$> encoding_field :: emitted_fields (Struct.fields self)),
     Struct.set_fields self (encoding_field :: Struct.fields self)).
Proof.
  intros Hpos. unfold struct_get_code.
  destruct (Nat.ltb_spec 0 (Struct.option_counter self)) as [_|?]; [|lia].
  cbn [Struct.fields Struct.set_fields].
  by rewrite struct_lines_concat, struct_lines_emitted.
Qed.

(** The line [get_code] writes for a field that is not named
    [SwitchField], spelled out. *)
Lemma struct_line_text (f : Field.t) :
  Field.name f ≠ "SwitchField" →
  struct_line "" f
  = "    " +:+ Field.name f
    +:+ (if Field.is_optional f
         then ": Optional["
              +:+ (if Field.array f
                   then "List['ua." +:+ Py.format (Field.uatype f) +:+ "']"
                   else "'ua." +:+ Py.format (Field.uatype f) +:+ "'")
              +:+ "] = None"
         else ":"
              +:+ (if Field.array f
                   then "List['ua." +:+ Py.format (Field.uatype f) +:+ "']"
                   else "'ua." +:+ Py.format (Field.uatype f) +:+ "'")
              +:+ " = "
              +:+ match Field.value f with
                  | Py.Str s =>
                      if Py.startswith s "ua."
                      then "field(default_factory=lambda: " +:+ s +:+ ")"
                      else s
                  | v => Py.format v
                  end)
    +:+ Py.nl.
Proof.
  intros Hname%String.eqb_neq. unfold struct_line. rewrite Hname. cbn [negb].
  rewrite annotation_quoted, !str_app_empty_l.
  destruct (Field.is_optional f).
  - by rewrite !str_app_assoc.
  - rewrite !str_app_assoc. do 4 f_equal.
    destruct (Field.value f) as [|v| |]; try reflexivity.
    by destruct (Py.startswith v "ua.").
Qed.



(** C10. [get_code] changes the struct it renders: with a positive option
    counter each call stores one more field [Encoding] at the head of the
    field list, so the text of a second call has the line of [Encoding]
    twice and is not the text of the first call. *)
Theorem get_code_not_idempotent (self : Struct.t) :
  0 < Struct.option_counter self →
  let first := struct_get_code self in
  let second := struct_get_code first.2 in
  let line := "    Encoding:'ua.UInt32' = None" +:+ Py.nl in
  let rest := String.concat "" (struct_line "" <$> emitted_fields (Struct.fields self)) in
  Struct.fields first.2 = encoding_field :: Struct.fields self
  ∧ Struct.fields second.2 = encoding_field :: encoding_field :: Struct.fields self
  ∧ first.1 = struct_header (Struct.name self) +:+ line +:+ rest
  ∧ second.1 = struct_header (Struct.name self) +:+ line +:+ line +:+ rest
  ∧ second.1 ≠ first.1.
Proof.
  intros Hpos. cbv zeta.
  assert (Hfirst : struct_get_code self
                   = ((struct_get_code self).1,
                      Struct.set_fields self (encoding_field :: Struct.fields self))).
  { unfold struct_get_code.
    by destruct (Nat.ltb_spec 0 (Struct.option_counter self)) as [_|?]; [|lia]. }
  assert (Hpos' : 0 < Struct.option_counter
                        (Struct.set_fields self (encoding_field :: Struct.fields self)))
    by done.
  pose proof (f_equal fst (struct_get_code_positive self Hpos)) as Hc1.
  pose proof (f_equal fst (struct_get_code_positive _ Hpos')) as Hc2.
  cbn [fst] in Hc1, Hc2.
  rewrite Hfirst. cbn [fst snd].
  assert (Hsecond : (struct_get_code
                       (Struct.set_fields self (encoding_field :: Struct.fields self))).2
                    = Struct.set_fields self
                        (encoding_field :: encoding_field :: Struct.fields self)).
  { unfold struct_get_code. cbn [Struct.option_counter Struct.set_fields].
    by destruct (Nat.ltb_spec 0 (Struct.option_counter self)) as [_|?]; [|lia]. }
  rewrite Hsecond, Hc1, Hc2. cbn [Struct.fields Struct.set_fields Struct.name].
  assert (Hemit : emitted_fields (encoding_field :: Struct.fields self)
                  = encoding_field :: emitted_fields (Struct.fields self)) by done.
  rewrite Hemit, !fmap_cons, !concat_cons.
  split_and!; try reflexivity.
  intros Heq. apply (f_equal String.length) in Heq.
  rewrite !str_length_app in Heq. simpl in Heq. lia.
Qed.

(** ** Loops that may raise *)

Lemma for_each_app {A S : Type} (body : S → A → Py.res S) (l1 l2 : list A) (s : S) :
  Py.for_each body (l1 ++ l2) s = Py.for_each body l1 s ≫= Py.for_each body l2.
Proof.
  revert s. induction l1 as [|x l1 IH]; intros s; [done|].
  simpl. destruct (body s x) as [s1|e]; simpl; [apply IH | done].
Qed.

Lemma for_each_app_Ok {A S : Type} (body : S → A → Py.res S) (l1 l2 : list A) (s r : S) :
  Py.for_each body (l1 ++ l2) s = Py.Ok r →
  ∃ m, Py.for_each body l1 s = Py.Ok m ∧ Py.for_each body l2 m = Py.Ok r.
Proof.
  rewrite for_each_app. destruct (Py.for_each body l1 s) as [m|e]; simpl; [eauto | done].
Qed.

Lemma for_each_cons_Ok {A S : Type} (body : S → A → Py.res S) (x : A) (l : list A) (s r : S) :
  Py.for_each body (x :: l) s = Py.Ok r →
  ∃ m, body s x = Py.Ok m ∧ Py.for_each body l m = Py.Ok r.
Proof. simpl. destruct (body s x) as [m|e]; simpl; [eauto | done]. Qed.

(** ** The second pass over the fields of a structured type *)

(** A step that returns either leaves the struct alone, and sets the array
    mode if it read a marker, or appends the field of a real declaration
    and clears the array mode. *)
Lemma field_step_cases (enums : gmap string Py.value) (a : bool) (s : Struct.t)
    (x : Element) (r : bool * Struct.t) :
  field_step clean_name get_default_value enums (a, s) x = Py.Ok r →
  (is_real x = false ∧ r = (a || is_marker x, s))
  ∨ (is_real x = true ∧ is_marker x = false ∧
     ∃ n t v0, get x "Name" = Some n ∧ resolved_type x = Some t ∧
       get_default_value (clean_name t) enums = Py.Ok v0 ∧
       let optional := negb (String.eqb (get_or x "SwitchField" "") "") in
       let v := if a then Py.Str "field(default_factory=list)" else v0 in
       r = (false,
            Struct.mk (Struct.name s)
              (Struct.fields s
                 ++ [Field.mk (clean_name n) (Py.Str (clean_name t)) v a optional])
              (Struct.typeid s)
              (if optional then Struct.option_counter s + 1 else Struct.option_counter s))).
Proof.
  unfold field_step, is_real, is_marker, is_Field, resolved_type.
  destruct (Py.endswith (tag x) "Field"); simpl.
  2: { intros [= <-]. left. by rewrite orb_false_r. }
  destruct (get x "Name") as [n|]; [|done].
  destruct (_is_array_field n); simpl.
  { intros [= <-]. left. by rewrite orb_true_r. }
  destruct (get x "TypeName") as [ty|]; [|done].
  destruct (local_type ty) as [t|e]; simpl; [|done].
  destruct (String.eqb t "Bit") eqn:Hbit; simpl.
  { intros [= <-]. left. by rewrite orb_false_r. }
  destruct (get_default_value (clean_name t) enums) as [v0|e] eqn:Hv; simpl; [|done].
  intros [= <-]. right. split_and!; try done.
  exists n, t, v0. split_and!; try done.
  destruct (negb (String.eqb (get_or x "SwitchField" "") "")), a, s; reflexivity.
Qed.

Lemma marker_not_real (x : Element) : is_marker x = true → is_real x = false.
Proof. unfold is_real. intros ->. by rewrite andb_false_r. Qed.



(** The loop only appends: one field per real declaration it has read,
    named after it. *)
Lemma fields_loop (enums : gmap string Py.value) (xs : list Element)
    (a a' : bool) (s s' : Struct.t) :
  Py.for_each (field_step clean_name get_default_value enums) xs (a, s) = Py.Ok (a', s') →
  ∃ fs, Struct.fields s' = Struct.fields s ++ fs
        ∧ length fs = length (filter (λ x, is_real x = true) xs)
        ∧ Field.name <$> fs
          = (λ x, clean_name (default "" (get x "Name")))
              <$> filter (λ x, is_real x = true) xs
        ∧ Struct.name s' = Struct.name s.
Proof.
  revert a s. induction xs as [|x xs IH]; intros a s H.
  - injection H as <- <-. exists []. by rewrite app_nil_r.
  - apply for_each_cons_Ok in H as ([a1 s1] & Hstep & Hrest).
    apply IH in Hrest as (fs & Hfs & Hlen & Hnames & Hname).
    apply field_step_cases in Hstep as [[Hreal [= -> ->]] | (Hreal & _ & n & t & v0 & Hn & _ & _ & Heq)].
    + exists fs. rewrite filter_cons_False by (by rewrite Hreal). done.
    + cbv zeta in Heq. injection Heq as -> ->.
      eexists (_ :: fs). rewrite filter_cons_True by done.
      rewrite Hfs, Hname. cbn [Struct.fields Struct.name].
      rewrite <- app_assoc. split_and!; [done | simpl; by rewrite Hlen | | done].
      rewrite !fmap_cons, Hnames, Hn. done.
Qed.

(** Declarations that are not real leave the struct alone; a marker among
    them sets the array mode, and nothing clears it. *)
Lemma skipped_run (enums : gmap string Py.value) (mid : list Element)
    (a a' : bool) (s s' : Struct.t) :
  Forall (λ y, is_real y = false) mid →
  Py.for_each (field_step clean_name get_default_value enums) mid (a, s) = Py.Ok (a', s') →
  s' = s ∧ a' = a || existsb is_marker mid.
Proof.
  intros Hmid. revert a. induction Hmid as [|y mid Hy _ IH]; intros a H.
  - injection H as <- <-. by rewrite orb_false_r.
  - apply for_each_cons_Ok in H as ([a1 s1] & Hstep & Hrest).
    apply field_step_cases in Hstep as [[_ [= -> ->]] | (Hreal & _)]; [|congruence].
    apply IH in Hrest as [-> ->]. simpl. by rewrite orb_assoc.
Qed.

(** What the loop makes of a real declaration [r] that it reads in array
    mode [a1] with the struct [s1]. *)
Lemma real_then_rest (enums : gmap string Py.value) (r : Element) (post : list Element)
    (a1 a' : bool) (s1 s' : Struct.t) :
  is_real r = true →
  Py.for_each (field_step clean_name get_default_value enums) (r :: post) (a1, s1)
  = Py.Ok (a', s') →
  ∃ F n t v0, get r "Name" = Some n ∧ resolved_type r = Some t
    ∧ get_default_value (clean_name t) enums = Py.Ok v0
    ∧ Struct.fields s' !! length (Struct.fields s1) = Some F
    ∧ Field.name F = clean_name n
    ∧ Field.uatype F = Py.Str (clean_name t)
    ∧ Field.array F = a1
    ∧ Field.value F = (if a1 then Py.Str "field(default_factory=list)" else v0).
Proof.
  intros Hreal H. apply for_each_cons_Ok in H as ([a2 s2] & Hstep & Hrest).
  apply field_step_cases in Hstep
    as [[? _] | (_ & _ & n & t & v0 & Hn & Ht & Hv & Heq)]; [congruence|].
  cbv zeta in Heq. injection Heq as -> ->.
  apply fields_loop in Hrest as (fs & Hfs & _). cbn [Struct.fields] in Hfs.
  eexists _, n, t, v0. do 3 (split; [done|]). split.
  { rewrite Hfs, <- app_assoc. rewrite lookup_app_r by lia. by rewrite Nat.sub_diag. }
  done.
Qed.

Lemma no_marker_existsb (mid : list Element) :
  Forall (λ y, is_real y = false ∧ is_marker y = false) mid →
  existsb is_marker mid = false ∧ Forall (λ y, is_real y = false) mid.
Proof.
  induction 1 as [|y mid [Hr Hm] _ [IH1 IH2]]; [done|].
  simpl. rewrite Hm, IH1. split; [done|]. by constructor.
Qed.

(** C4. In the struct the second pass builds from the declarations [xs]:
    the fields are those of the real declarations, one each and in order,
    named after them, so a declaration whose name is an array-length
    marker has no field; the first real declaration after a marker gets a
    field with [array] set and the empty-list default; and the array mode
    is cleared by that: a real declaration that follows a real one with no
    marker in between gets a field without [array], with the default that
    [get_default_value] returned for its type. *)
Theorem array_marker_consumed (enums : gmap string Py.value) (struct_name : string)
    (xs : list Element) (a' : bool) (s' : Struct.t) :
  Py.for_each (field_step clean_name get_default_value enums) xs
    (false, Struct.mk struct_name [] None 0) = Py.Ok (a', s') →
  (∀ x, is_marker x = true → is_real x = false)
  ∧ Field.name <$> Struct.fields s'
    = (λ x, clean_name (default "" (get x "Name"))) <$> filter (λ x, is_real x = true) xs
  ∧ (∀ pre m mid r post,
       xs = pre ++ m :: mid ++ r :: post →
       is_marker m = true → Forall (λ y, is_real y = false) mid → is_real r = true →
       ∃ F n, get r "Name" = Some n
         ∧ Struct.fields s' !! length (filter (λ x, is_real x = true) pre) = Some F
         ∧ Field.name F = clean_name n
         ∧ Field.array F = true
         ∧ Field.value F = Py.Str "field(default_factory=list)")
  ∧ (∀ pre r1 mid r2 post,
       xs = pre ++ r1 :: mid ++ r2 :: post →
       is_real r1 = true →
       Forall (λ y, is_real y = false ∧ is_marker y = false) mid →
       is_real r2 = true →
       ∃ F n t, get r2 "Name" = Some n ∧ resolved_type r2 = Some t
         ∧ Struct.fields s' !! S (length (filter (λ x, is_real x = true) pre)) = Some F
         ∧ Field.name F = clean_name n
         ∧ Field.array F = false
         ∧ get_default_value (clean_name t) enums = Py.Ok (Field.value F)).
Proof.
  intros Hrun. split; [apply marker_not_real|]. split; [|split].
  - apply fields_loop in Hrun as (fs & Hfs & _ & Hnames & _). by rewrite Hfs.
  - intros pre m mid r post -> Hm Hmid Hr.
    apply for_each_app_Ok in Hrun as ([a1 s1] & Hpre & Hrun).
    apply fields_loop in Hpre as (fs1 & Hfs1 & Hlen1 & _). cbn [Struct.fields app] in Hfs1.
    apply for_each_cons_Ok in Hrun as ([a2 s2] & Hstep & Hrun).
    apply field_step_cases in Hstep as [[_ [= -> ->]] | (Hreal & Hnm & _)]; [|congruence].
    apply for_each_app_Ok in Hrun as ([a3 s3] & Hskip & Hrun).
    apply skipped_run in Hskip as [-> ->]; [|done].
    rewrite Hm, orb_true_r in Hrun. simpl in Hrun.
    eapply real_then_rest in Hrun as (F & n & t & v0 & Hn & _ & _ & HF & ? & _ & ? & ?); [|done].
    exists F, n. rewrite <- Hlen1, <- Hfs1. done.
  - intros pre r1 mid r2 post -> Hr1 Hmid Hr2.
    apply no_marker_existsb in Hmid as [Hnone Hmid].
    apply for_each_app_Ok in Hrun as ([a1 s1] & Hpre & Hrun).
    apply fields_loop in Hpre as (fs1 & Hfs1 & Hlen1 & _). cbn [Struct.fields app] in Hfs1.
    apply for_each_cons_Ok in Hrun as ([a2 s2] & Hstep & Hrun).
    apply field_step_cases in Hstep as [[? _] | (_ & _ & n1 & t1 & v1 & _ & _ & _ & Heq)]; [congruence|].
    cbv zeta in Heq. injection Heq as -> ->.
    apply for_each_app_Ok in Hrun as ([a3 s3] & Hskip & Hrun).
    apply skipped_run in Hskip as [-> ->]; [|done].
    rewrite Hnone in Hrun. simpl in Hrun.
    eapply real_then_rest in Hrun
      as (F & n & t & v0 & Hn & Ht & Hv & HF & ? & _ & ? & HFv); [|done].
    exists F, n, t. cbn [Struct.fields] in HF.
    rewrite length_app, Hfs1, Hlen1, Nat.add_1_r in HF. rewrite HFv. done.
Qed.



(** ** The two passes *)

Lemma enum_pass (xs : list Element) (model model' : list entry)
    (enums enums' : gmap string Py.value) :
  Py.for_each (enum_step clean_name) xs (model, enums) = Py.Ok (model', enums') →
  ∃ es, model' = model ++ es ∧ Forall (λ x, is_enum x = true) es.
Proof.
  revert model enums. induction xs as [|x xs IH]; intros model enums H.
  - injection H as <- <-. exists []. by rewrite app_nil_r.
  - apply for_each_cons_Ok in H as ([m1 e1] & Hstep & Hrest).
    apply IH in Hrest as (es & -> & Hes).
    unfold enum_step in Hstep. destruct (Py.endswith (tag x) "EnumeratedType").
    + destruct (clean_attr clean_name (get x "Name")) as [[raw cleaned]|e]; simpl in Hstep; [|done].
      destruct (Py.for_each _ (children x) _) as [[intenum e2]|e]; simpl in Hstep; [|done].
      injection Hstep as <- <-. exists (AnEnum intenum :: es).
      rewrite <- app_assoc. split; [done|]. by constructor.
    + injection Hstep as <- <-. by exists es.
Qed.

Lemma struct_pass (enums : gmap string Py.value) (xs : list Element)
    (model model' : list entry) :
  Py.for_each (struct_step clean_name get_default_value enums) xs model = Py.Ok model' →
  ∃ ss, model' = model ++ ss ∧ Forall (λ x, is_struct x = true) ss.
Proof.
  revert model. induction xs as [|x xs IH]; intros model H.
  - injection H as <-. exists []. by rewrite app_nil_r.
  - apply for_each_cons_Ok in H as (m1 & Hstep & Hrest).
    apply IH in Hrest as (ss & -> & Hss).
    unfold struct_step in Hstep. destruct (Py.endswith (tag x) "StructuredType").
    + destruct (clean_attr clean_name (get x "Name")) as [[raw cleaned]|e]; simpl in Hstep; [|done].
      destruct (Py.for_each _ (children x) _) as [[a s]|e]; simpl in Hstep; [|done].
      injection Hstep as <-. exists (AStruct s :: ss).
      rewrite <- app_assoc. split; [done|]. by constructor.
    + injection Hstep as <-. by exists ss.
Qed.

(** C6. The model a fresh generator builds from a document is the enums of
    the first pass followed by the structs of the second: every enum stands
    at a lower index than every struct. *)
Theorem enums_before_structs (root : Element) (model : list entry) :
  _make_model clean_name get_default_value root [] = Py.Ok model →
  (∃ es ss, model = es ++ ss
     ∧ Forall (λ x, is_enum x = true) es ∧ Forall (λ x, is_struct x = true) ss)
  ∧ ∀ i j e s, model !! i = Some (AnEnum e) → model !! j = Some (AStruct s) → i < j.
Proof.
  unfold _make_model. intros H.
  destruct (Py.for_each (enum_step clean_name) (children root) ([], ∅))
    as [[m1 enums]|e] eqn:H1; simpl in H; [|done].
  apply enum_pass in H1 as (es & -> & Hes). apply struct_pass in H as (ss & -> & Hss).
  simpl. split; [by exists es, ss|].
  intros i j e s Hi Hj.
  destruct (decide (i < length es)) as [Hlt|Hge].
  - destruct (decide (j < length es)) as [Hjlt|?]; [|lia].
    rewrite lookup_app_l in Hj by done.
    rewrite Forall_forall in Hes. apply list_elem_of_lookup_2, Hes in Hj. done.
  - rewrite lookup_app_r in Hi by lia.
    rewrite Forall_forall in Hss. apply list_elem_of_lookup_2, Hss in Hi. done.
Qed.

(** ** Documents on which the model builder returns *)

Lemma split_nonempty (c : Ascii.ascii) (s : string) : Py.split c s ≠ [].
Proof.
  destruct s as [|a s]; simpl; [done|].
  destruct (Ascii.eqb a c); [done|]. by destruct (Py.split c s).
Qed.

Lemma split_contains (c : Ascii.ascii) (s : string) :
  Py.contains c s = true → 2 ≤ length (Py.split c s).
Proof.
  induction s as [|a s IH]; simpl; [done|].
  destruct (Ascii.eqb a c).
  - intros _. pose proof (split_nonempty c s). destruct (Py.split c s); [done|]. simpl. lia.
  - intros H%IH. destruct (Py.split c s); simpl in *; lia.
Qed.

(** The index 1 is always there when the type name has a colon:
    [local_type] never raises. *)
Lemma local_type_returns (_type : string) : ∃ t, local_type _type = Py.Ok t.
Proof.
  unfold local_type. destruct (Py.contains ":" _type) eqn:H; [|by eexists].
  apply split_contains in H.
  destruct (Py.split ":" _type !! 1) as [part|] eqn:Hpart; [by eexists|].
  apply lookup_ge_None in Hpart. lia.
Qed.

Lemma for_each_returns {A S : Type} (body : S → A → Py.res S) (P : A → bool)
    (items : list A) :
  (∀ s x, P x = true → ∃ r, body s x = Py.Ok r) →
  forallb P items = true →
  ∀ s, ∃ r, Py.for_each body items s = Py.Ok r.
Proof.
  intros Hbody. induction items as [|x items IH]; intros Hall s; [by eexists|].
  simpl in Hall. apply andb_true_iff in Hall as [Hx Hall].
  destruct (Hbody s x Hx) as [r Hr]. simpl. rewrite Hr. simpl. by apply IH.
Qed.

Lemma field_step_returns (enums : gmap string Py.value) (st : bool * Struct.t)
    (x : Element) :
  field_well_formed x && default_resolved clean_name get_default_value enums x = true →
  ∃ r, field_step clean_name get_default_value enums st x = Py.Ok r.
Proof.
  unfold field_well_formed, default_resolved, is_real, is_marker, resolved_type,
    field_step, is_Field. destruct st as [a s].
  destruct (Py.endswith (tag x) "Field"); simpl; [|by eexists].
  destruct (get x "Name") as [n|]; [|done].
  destruct (_is_array_field n); simpl; [by eexists|].
  destruct (get x "TypeName") as [ty|]; [|done].
  destruct (local_type_returns ty) as [t ->]. simpl.
  destruct (String.eqb t "Bit"); simpl; [by eexists|].
  destruct (get_default_value (clean_name t) enums); [by eexists | done].
Qed.

Lemma forallb_both {A : Type} (P Q : A → bool) (items : list A) :
  forallb P items = true → forallb Q items = true →
  forallb (λ x, P x && Q x) items = true.
Proof.
  induction items as [|x items IH]; [done|]. simpl.
  intros [-> ?]%andb_true_iff [-> ?]%andb_true_iff. by apply IH.
Qed.

Lemma enum_value_step_returns (key : string) (st : EnumType.t * gmap string Py.value)
    (x : Element) :
  enum_value_well_formed x = true → ∃ r, enum_value_step key st x = Py.Ok r.
Proof.
  unfold enum_value_well_formed, enum_value_step. destruct st as [intenum enums].
  destruct (Py.endswith (tag x) "EnumeratedValue"); simpl; [|by eexists].
  destruct (get x "Name"); [|done]. by eexists.
Qed.

(** On a well-formed document [_make_model] returns a model, when the
    default values of the second pass are resolved with the side map the
    first pass has built. *)
Lemma _make_model_returns (root : Element) (model : list entry) :
  forallb type_well_formed (children root) = true →
  (∀ m1 enums,
     Py.for_each (enum_step clean_name) (children root) (model, ∅) = Py.Ok (m1, enums) →
     forallb (defaults_resolved clean_name get_default_value enums) (children root) = true) →
  ∃ model', _make_model clean_name get_default_value root model = Py.Ok model'.
Proof.
  intros Hwf Hdef. unfold _make_model.
  destruct (for_each_returns (enum_step clean_name) type_well_formed (children root))
    with (s := (model, (∅ : gmap string Py.value))) as [[m1 enums] Hpass]; [|done|];
    [|rewrite Hpass; specialize (Hdef m1 enums Hpass)].
  { intros [m e] x [Hx _]%andb_true_iff. unfold enum_step.
    destruct (Py.endswith (tag x) "EnumeratedType"); [|by eexists].
    destruct (get x "Name") as [n|]; [|done]. simpl in *.
    destruct (for_each_returns (enum_value_step n) enum_value_well_formed (children x))
      with (s := (EnumType.mk (clean_name n) [] None, e)) as [[i e'] ->];
      [intros; by apply enum_value_step_returns | done | by eexists]. }
  simpl.
  apply (for_each_returns _
           (λ x, type_well_formed x && defaults_resolved clean_name get_default_value enums x));
    [|by apply forallb_both].
  intros m x [[_ Hx]%andb_true_iff Hd]%andb_true_iff. unfold struct_step.
  unfold defaults_resolved in Hd.
  destruct (Py.endswith (tag x) "StructuredType"); [|by eexists].
  destruct (get x "Name") as [n|]; [|done]. simpl in *.
  destruct (for_each_returns (field_step clean_name get_default_value enums)
              (λ y, field_well_formed y
                    && default_resolved clean_name get_default_value enums y)
              (children x))
    with (s := (false, Struct.mk (clean_name n) [] None 0)) as [[a s] ->];
    [intros; by apply field_step_returns | by apply forallb_both | by eexists].
Qed.

(** ** Loading *)

Lemma exec_each_cons (element : entry) (rest : list entry) (env : gmap string Py.object) :
  exec_each clean_name exec (element :: rest) env
  = match exec (get_code clean_name element).1 env with
    | Executed env' =>
        let r := exec_each clean_name exec rest env' in
        Loaded (namespace r) ((get_code clean_name element).2 :: model_after r) (raised r)
    | Failed env' =>
        Loaded env' ((get_code clean_name element).2 :: rest)
          (Some (Py.ExecError (get_code clean_name element).1))
    end.
Proof. simpl. by destruct (get_code clean_name element). Qed.

(** A load that raises stopped at one entry: the entries before it were all
    executed, and [exec] failed on the text of that entry in the namespace
    they had produced. *)
Lemma exec_each_raised (model : list entry) (env : gmap string Py.object) (e : Py.exn) :
  raised (exec_each clean_name exec model env) = Some e →
  ∃ pre element post,
    model = pre ++ element :: post
    ∧ raised (exec_each clean_name exec pre env) = None
    ∧ exec (get_code clean_name element).1 (namespace (exec_each clean_name exec pre env))
      = Failed (namespace (exec_each clean_name exec model env))
    ∧ e = Py.ExecError (get_code clean_name element).1.
Proof.
  revert env. induction model as [|x model IH]; intros env; [done|].
  rewrite exec_each_cons.
  destruct (exec (get_code clean_name x).1 env) as [env'|env'] eqn:Hx; cbn [raised namespace].
  - intros (pre & element & post & -> & Hpre & Hfail & ->)%IH.
    exists (x :: pre), element, post. rewrite exec_each_cons, Hx. cbn [raised namespace].
    split_and!; [done | done | | done].
    by rewrite Hfail.
  - intros [= <-]. by exists [], x, model.
Qed.

(** A load that does not raise on a prefix goes on from the namespace the
    prefix produced. *)
Lemma exec_each_app (pre post : list entry) (env : gmap string Py.object) :
  raised (exec_each clean_name exec pre env) = None →
  namespace (exec_each clean_name exec (pre ++ post) env)
  = namespace (exec_each clean_name exec post
                 (namespace (exec_each clean_name exec pre env))).
Proof.
  revert env. induction pre as [|x pre IH]; intros env; [done|].
  rewrite <- app_comm_cons, !exec_each_cons.
  destruct (exec (get_code clean_name x).1 env) as [env'|env']; cbn [raised namespace].
  - apply IH.
  - done.
Qed.

(** C1, as the code has it.  When the load raises, it raises on the first
    entry whose text [exec] refuses; the entries before it have all been
    executed into the target namespace, which is left as that failed [exec]
    left it, and no later entry is executed.  Nothing is rolled back. *)
Theorem failed_load_keeps_earlier_entries (model : list entry)
    (env : option (gmap string Py.object)) (ua_dict : gmap string Py.object) (e : Py.exn) :
  let r := _generate_python_class clean_name exec model env ua_dict in
  let start := add_libraries (default ua_dict env) in
  raised r = Some e →
  ∃ pre element post,
    let before := exec_each clean_name exec pre start in
    model = pre ++ element :: post
    ∧ raised before = None
    ∧ exec (get_code clean_name element).1 (namespace before) = Failed (namespace r)
    ∧ e = Py.ExecError (get_code clean_name element).1.
Proof.
  cbv zeta. unfold _generate_python_class. intros H.
  destruct env as [env|]; by apply exec_each_raised in H.
Qed.

(** ** Registration of the classes of a node *)

Variable NodeId : Type.
Variable to_string : NodeId → string.
Variable get_references : NodeId → list (Description NodeId).

Lemma register_children_app (structs_dict : gmap string Py.object)
    (pre post : list (Description NodeId)) (st : list entry * list (effect NodeId)) :
  register_children clean_name NodeId to_string get_references structs_dict (pre ++ post) st
  = register_children clean_name NodeId to_string get_references structs_dict post
      (register_children clean_name NodeId to_string get_references structs_dict pre st).
Proof. apply fold_left_app. Qed.

Lemma register_children_cons (structs_dict : gmap string Py.object)
    (d : Description NodeId) (ds : list (Description NodeId))
    (st : list entry * list (effect NodeId)) :
  register_children clean_name NodeId to_string get_references structs_dict (d :: ds) st
  = register_children clean_name NodeId to_string get_references structs_dict ds
      (register_child clean_name NodeId to_string get_references structs_dict st d).
Proof. reflexivity. Qed.

(** A step keeps the effects made so far. *)
Lemma register_child_effects (structs_dict : gmap string Py.object)
    (st : list entry * list (effect NodeId)) (d : Description NodeId) :
  ∃ more,
    (register_child clean_name NodeId to_string get_references structs_dict st d).2
    = st.2 ++ more.
Proof.
  destruct st as [model effects]. unfold register_child.
  destruct (get_references (Id d)) as [|first rest].
  - exists []. by rewrite app_nil_r.
  - destruct (structs_dict !! clean_name (BrowseName d)); by eexists.
Qed.

Lemma register_children_effects (structs_dict : gmap string Py.object)
    (ds : list (Description NodeId)) (st : list entry * list (effect NodeId)) :
  ∃ more,
    (register_children clean_name NodeId to_string get_references structs_dict ds st).2
    = st.2 ++ more.
Proof.
  revert st. induction ds as [|d ds IH]; intros st.
  - exists []. by rewrite app_nil_r.
  - destruct (IH (register_child clean_name NodeId to_string get_references
                    structs_dict st d)) as [more2 H2].
    destruct (register_child_effects structs_dict st d) as [more1 H1].
    exists (more1 ++ more2). by rewrite register_children_cons, H2, H1, app_assoc.
Qed.

(** A descriptor with a description reference and a class of its name is
    registered, wherever it stands in the list. *)
Lemma registered (structs_dict : gmap string Py.object) (ds : list (Description NodeId))
    (st : list entry * list (effect NodeId)) (d first : Description NodeId)
    (rest : list (Description NodeId)) (class : Py.object) :
  d ∈ ds →
  get_references (Id d) = first :: rest →
  structs_dict !! clean_name (BrowseName d) = Some class →
  Register (clean_name (BrowseName d)) (Id first) class
  ∈ (register_children clean_name NodeId to_string get_references structs_dict ds st).2.
Proof.
  intros Hd Hrefs Hclass. revert st.
  induction ds as [|d0 ds IH]; intros st; [by apply elem_of_nil in Hd|].
  rewrite register_children_cons.
  apply elem_of_cons in Hd as [<-|Hd]; [|by apply IH].
  destruct (register_children_effects structs_dict ds
              (register_child clean_name NodeId to_string get_references structs_dict st d))
    as [more ->].
  destruct st as [model effects]. unfold register_child. rewrite Hrefs, Hclass. simpl.
  rewrite !elem_of_app, list_elem_of_singleton. auto.
Qed.

(** The effects made before a step, or before the loop, are carried along
    unread. *)
Lemma register_child_from (structs_dict : gmap string Py.object)
    (st : list entry * list (effect NodeId)) (d : Description NodeId) :
  register_child clean_name NodeId to_string get_references structs_dict st d
  = ((register_child clean_name NodeId to_string get_references structs_dict (st.1, []) d).1,
     st.2 ++ (register_child clean_name NodeId to_string get_references structs_dict
                (st.1, []) d).2).
Proof.
  destruct st as [model effects]. unfold register_child. cbn [fst snd].
  destruct (get_references (Id d)) as [|first rest]; [by rewrite app_nil_r|].
  by destruct (structs_dict !! clean_name (BrowseName d)).
Qed.

Lemma register_children_from (structs_dict : gmap string Py.object)
    (ds : list (Description NodeId)) (st : list entry * list (effect NodeId)) :
  register_children clean_name NodeId to_string get_references structs_dict ds st
  = ((register_children clean_name NodeId to_string get_references structs_dict ds
        (st.1, [])).1,
     st.2 ++ (register_children clean_name NodeId to_string get_references structs_dict ds
                (st.1, [])).2).
Proof.
  revert st. induction ds as [|d ds IH]; intros st.
  - destruct st as [model effects]. cbn. by rewrite app_nil_r.
  - rewrite !register_children_cons.
    rewrite (IH (register_child clean_name NodeId to_string get_references
                   structs_dict st d)).
    rewrite (IH (register_child clean_name NodeId to_string get_references
                   structs_dict (st.1, []) d)).
    rewrite (register_child_from structs_dict st d). cbn [fst snd].
    by rewrite app_assoc.
Qed.

(** C8, as the code has it.  A descriptor with no class of its name in the
    type map is skipped: the model is left as it was and nothing is
    registered for it.  A warning is logged for it when the server gives it
    a description reference, and nothing is logged when it has none.  The
    loop goes on from that state: the run with the descriptor is the run
    without it, with the warning, if any, put at its place; each later
    descriptor that has a reference and a class of its name is registered
    under the identifier of its first reference, and that identifier is
    stored as the type identifier of the entry of that name.  The loop is
    a total function: it raises nothing. *)
Theorem unmatched_descriptor_skipped (structs_dict : gmap string Py.object)
    (pre post : list (Description NodeId)) (d : Description NodeId)
    (st : list entry * list (effect NodeId)) :
  structs_dict !! clean_name (BrowseName d) = None →
  let run := register_children clean_name NodeId to_string get_references structs_dict in
  let before := run pre st in
  let logged :=
    match get_references (Id d) with
    | [] => []
    | _ :: _ =>
        [Warning (clean_name (BrowseName d)
                  +:+ " is found as child of binary definition node but is not found in xml")]
    end in
  let skipped := (before.1, before.2 ++ logged) in
  let tail := run post (before.1, []) in
  register_child clean_name NodeId to_string get_references structs_dict before d = skipped
  ∧ run (pre ++ d :: post) st = run post skipped
  ∧ run (pre ++ d :: post) st = (tail.1, before.2 ++ logged ++ tail.2)
  ∧ run (pre ++ post) st = (tail.1, before.2 ++ tail.2)
  ∧ (∀ d' first rest class,
       d' ∈ post →
       get_references (Id d') = first :: rest →
       structs_dict !! clean_name (BrowseName d') = Some class →
       Register (clean_name (BrowseName d')) (Id first) class
       ∈ (run (pre ++ d :: post) st).2)
  ∧ (∀ mid d' post' first rest class,
       post = mid ++ d' :: post' →
       get_references (Id d') = first :: rest →
       structs_dict !! clean_name (BrowseName d') = Some class →
       let reached := run mid skipped in
       run (pre ++ d :: post) st
       = run post'
           (set_typeid reached.1 (clean_name (BrowseName d')) (to_string (Id first)),
            reached.2 ++ [Register (clean_name (BrowseName d')) (Id first) class])).
Proof.
  intros Hnone. cbv zeta.
  assert (Hstep : ∀ st0,
    register_child clean_name NodeId to_string get_references structs_dict st0 d
    = (st0.1,
       st0.2 ++ match get_references (Id d) with
                | [] => []
                | _ :: _ =>
                    [Warning (clean_name (BrowseName d)
                       +:+ " is found as child of binary definition node but is not found in xml")]
                end)).
  { intros [model effects]. unfold register_child. cbn [fst snd].
    destruct (get_references (Id d)) as [|first rest]; [by rewrite app_nil_r|].
    by rewrite Hnone. }
  assert (Hrun : register_children clean_name NodeId to_string get_references structs_dict
                   (pre ++ d :: post) st
                 = register_children clean_name NodeId to_string get_references structs_dict
                     post
                     ((register_children clean_name NodeId to_string get_references
                         structs_dict pre st).1,
                      (register_children clean_name NodeId to_string get_references
                         structs_dict pre st).2
                      ++ match get_references (Id d) with
                         | [] => []
                         | _ :: _ =>
                             [Warning (clean_name (BrowseName d)
                                +:+ " is found as child of binary definition node but is not found in xml")]
                         end)).
  { by rewrite register_children_app, register_children_cons, Hstep. }
  split; [apply Hstep|]. split; [exact Hrun|]. split_and!.
  - rewrite Hrun, register_children_from. cbn [fst snd]. by rewrite app_assoc.
  - rewrite register_children_app, register_children_from.
    by destruct (register_children _ _ _ _ structs_dict pre st).
  - intros d' first rest class Hd' Hrefs' Hclass. rewrite Hrun. by eapply registered.
  - intros mid d' post' first rest class -> Hrefs' Hclass.
    rewrite Hrun, register_children_app, register_children_cons. f_equal.
    destruct (register_children _ _ _ _ structs_dict mid _) as [model effects].
    unfold register_child. by rewrite Hrefs', Hclass.
Qed.

(** * Further properties *)

(** ** Rendering a struct again and again *)

Lemma struct_get_code_zero (self : Struct.t) :
  Struct.option_counter self = 0 →
  struct_get_code self
  = (struct_header (Struct.name self)
     +:+ String.concat "" (struct_line "" <$> emitted_fields (Struct.fields self)),
     self).
Proof.
  intros Hzero. unfold struct_get_code. rewrite Hzero. simpl.
  by rewrite struct_lines_concat, struct_lines_emitted.
Qed.

(** X1. [get_code] leaves the struct as it was exactly when the option
    counter is 0; then a second call gives the same text, with no line for
    [Encoding] before the lines of the stored fields. *)
Theorem get_code_pure_iff (self : Struct.t) :
  ((struct_get_code self).2 = self ↔ Struct.option_counter self = 0)
  ∧ (Struct.option_counter self = 0 →
     (struct_get_code (struct_get_code self).2).1 = (struct_get_code self).1
     ∧ (struct_get_code self).1
       = struct_header (Struct.name self)
         +:+ String.concat "" (struct_line "" <$> emitted_fields (Struct.fields self))).
Proof.
  split; [split|].
  - intros Heq. destruct (Struct.option_counter self) as [|n] eqn:Hn; [done|].
    rewrite struct_get_code_positive in Heq by lia. simpl in Heq.
    apply (f_equal (λ s, length (Struct.fields s))) in Heq. simpl in Heq. lia.
  - intros Hzero. by rewrite struct_get_code_zero.
  - intros Hzero. rewrite (struct_get_code_zero self Hzero). cbn [fst snd].
    by rewrite (struct_get_code_zero self Hzero).
Qed.

Lemma get_code_times_S (n : nat) (self : Struct.t) :
  get_code_times (S n) self = (struct_get_code (get_code_times n self)).2.
Proof. reflexivity. Qed.

(** X2. After [n] calls of [get_code] a struct with a positive option
    counter holds [n] fields [Encoding] before the fields it had; its
    name, its type identifier and its option counter are as before. *)
Theorem get_code_times_fields (n : nat) (self : Struct.t) :
  0 < Struct.option_counter self →
  get_code_times n self
  = Struct.mk (Struct.name self) (replicate n encoding_field ++ Struct.fields self)
      (Struct.typeid self) (Struct.option_counter self).
Proof.
  intros Hpos. induction n as [|n IH]; [by destruct self|].
  rewrite get_code_times_S, IH, struct_get_code_positive by done. reflexivity.
Qed.

(** ** The structs of the second pass *)

(** X3. The option counter of the struct the second pass builds is the
    number of its fields that are optional, and its type identifier is
    not set. *)
Theorem option_counter_counts (enums : gmap string Py.value) (model model' : list entry)
    (child : Element) :
  Py.endswith (tag child) "StructuredType" = true →
  struct_step clean_name get_default_value enums model child = Py.Ok model' →
  ∃ s, model' = model ++ [AStruct s]
    ∧ Struct.option_counter s
      = length (filter (λ f, Field.is_optional f = true) (Struct.fields s))
    ∧ Struct.typeid s = None.
Proof.
  intros Htag. unfold struct_step. rewrite Htag.
  destruct (clean_attr clean_name (get child "Name")) as [[raw cleaned]|e]; simpl; [|done].
  destruct (Py.for_each _ (children child) _) as [[a s]|e] eqn:Hrun; simpl; [|done].
  intros [= <-]. exists s. split; [done|].
  assert (Hinv : ∀ xs a0 s0 a1 s1,
    Py.for_each (field_step clean_name get_default_value enums) xs (a0, s0) = Py.Ok (a1, s1) →
    Struct.option_counter s0
    = length (filter (λ f, Field.is_optional f = true) (Struct.fields s0)) →
    Struct.typeid s0 = None →
    Struct.option_counter s1
    = length (filter (λ f, Field.is_optional f = true) (Struct.fields s1))
    ∧ Struct.typeid s1 = None).
  { clear. induction xs as [|x xs IH]; intros a0 s0 a1 s1 H Hc Ht.
    - by injection H as <- <-.
    - apply for_each_cons_Ok in H as ([a2 s2] & Hstep & Hrest).
      apply (IH _ _ _ _ Hrest);
        apply field_step_cases in Hstep
          as [[_ [= -> ->]] | (_ & _ & n & t & v0 & _ & _ & _ & Heq)]; try done;
        cbv zeta in Heq; injection Heq as -> ->; cbn [Struct.option_counter Struct.fields
          Struct.typeid]; [|done].
      rewrite filter_app, length_app, <- Hc.
      destruct (negb (String.eqb (get_or x "SwitchField" "") "")) eqn:Hopt.
      + rewrite filter_cons_True by done. done.
      + rewrite filter_cons_False by (simpl; congruence). simpl. lia. }
  by apply (Hinv _ _ _ _ _ Hrun).
Qed.

(** ** The enumerations of the first pass *)

Lemma enum_values_loop (key : string) (xs : list Element) (intenum intenum' : EnumType.t)
    (enums enums' : gmap string Py.value) :
  Py.for_each (enum_value_step key) xs (intenum, enums) = Py.Ok (intenum', enums') →
  intenum'
  = EnumType.set_fields intenum
      (EnumType.fields intenum
       ++ ((λ x, EnumeratedValue.init (default "" (get x "Name")) (value_of (get x "Value")))
             <$> filter (λ x, is_EnumeratedValue x = true) xs))
  ∧ enums'
    = match last (filter (λ x, is_EnumeratedValue x = true) xs) with
      | Some x => <[key := value_of (get x "Value")]> enums
      | None => enums
      end.
Proof.
  revert intenum enums. induction xs as [|x xs IH]; intros intenum enums H.
  - injection H as <- <-. simpl. rewrite app_nil_r. by destruct intenum.
  - apply for_each_cons_Ok in H as ([i1 e1] & Hstep & Hrest).
    apply IH in Hrest as [-> ->]. unfold enum_value_step in Hstep.
    change (Py.endswith (tag x) "EnumeratedValue") with (is_EnumeratedValue x) in Hstep.
    destruct (is_EnumeratedValue x) eqn:Hx.
    + destruct (get x "Name") as [n|] eqn:Hn; simpl in Hstep; [|done].
      injection Hstep as <- <-. rewrite !filter_cons_True by done.
      cbn [EnumType.fields EnumType.set_fields EnumType.name EnumType.typeid].
      rewrite fmap_cons, <- app_assoc, last_cons. split; [by rewrite Hn|].
      destruct (last (filter _ xs)) as [z|]; [by rewrite insert_insert_eq | done].
    + injection Hstep as <- <-. rewrite !filter_cons_False by (simpl; congruence). done.
Qed.

(** X4. The enumeration the first pass builds from an enumerated type has
    one member per [EnumeratedValue] child, in the order of the document,
    each with the value the document gives (a string, or [None] when the
    attribute is absent): values are not renumbered, and other children are
    passed over. *)
Theorem enum_members_in_order (model model' : list entry)
    (enums enums' : gmap string Py.value) (child : Element) :
  Py.endswith (tag child) "EnumeratedType" = true →
  enum_step clean_name (model, enums) child = Py.Ok (model', enums') →
  ∃ raw, get child "Name" = Some raw
    ∧ model'
      = model
        ++ [AnEnum
              (EnumType.mk (clean_name raw)
                 ((λ x, EnumeratedValue.init (default "" (get x "Name"))
                          (value_of (get x "Value")))
                    <$> filter (λ x, is_EnumeratedValue x = true) (children child))
                 None)].
Proof.
  intros Htag. unfold enum_step. rewrite Htag.
  destruct (get child "Name") as [raw|]; simpl; [|done].
  destruct (Py.for_each _ (children child) _) as [[intenum e2]|e] eqn:Hrun; simpl; [|done].
  intros [= <- <-]. exists raw. split; [done|].
  by apply enum_values_loop in Hrun as [-> _].
Qed.

(** X5. The side map of enumeration defaults gets, for an enumerated type,
    the value of its last [EnumeratedValue] child, under the raw name of
    the type; a type without such a child adds nothing, and no other key
    changes. *)
Theorem enum_default_is_last_value (model model' : list entry)
    (enums enums' : gmap string Py.value) (child : Element) :
  Py.endswith (tag child) "EnumeratedType" = true →
  enum_step clean_name (model, enums) child = Py.Ok (model', enums') →
  ∃ raw, get child "Name" = Some raw
    ∧ enums' !! raw
      = match last (filter (λ x, is_EnumeratedValue x = true) (children child)) with
        | Some x => Some (value_of (get x "Value"))
        | None => enums !! raw
        end
    ∧ ∀ key, key ≠ raw → enums' !! key = enums !! key.
Proof.
  intros Htag. unfold enum_step. rewrite Htag.
  destruct (get child "Name") as [raw|]; simpl; [|done].
  destruct (Py.for_each _ (children child) _) as [[intenum e2]|e] eqn:Hrun; simpl; [|done].
  intros [= <- <-]. exists raw. split; [done|].
  apply enum_values_loop in Hrun as [_ ->].
  destruct (last _) as [x|].
  - split; [by rewrite lookup_insert_eq|]. intros key Hkey. by rewrite lookup_insert_ne.
  - done.
Qed.

(** ** When the model builder returns, and what an earlier model does to it *)

Lemma for_each_Ok_elem {A S : Type} (body : S → A → Py.res S) (items : list A)
    (s r : S) (x : A) :
  Py.for_each body items s = Py.Ok r → x ∈ items → ∃ s' r', body s' x = Py.Ok r'.
Proof.
  revert s. induction items as [|y items IH]; intros s H Hx; [by apply elem_of_nil in Hx|].
  apply for_each_cons_Ok in H as (m & Hstep & Hrest).
  apply elem_of_cons in Hx as [->|Hx]; [by eexists _, _ | by eapply IH].
Qed.

Lemma forallb_elem {A : Type} (P : A → bool) (items : list A) :
  (∀ x, x ∈ items → P x = true) → forallb P items = true.
Proof.
  intros H. apply forallb_forall. intros x Hx. by apply H, list_elem_of_In.
Qed.

Lemma field_step_Ok_well_formed (enums : gmap string Py.value) (st r : bool * Struct.t)
    (x : Element) :
  field_step clean_name get_default_value enums st x = Py.Ok r →
  field_well_formed x = true
  ∧ default_resolved clean_name get_default_value enums x = true.
Proof.
  unfold field_step, field_well_formed, default_resolved, is_real, is_marker,
    resolved_type, is_Field. destruct st as [a s].
  destruct (Py.endswith (tag x) "Field"); simpl; [|done].
  destruct (get x "Name") as [n|]; [|done].
  destruct (_is_array_field n); simpl; [done|].
  destruct (get x "TypeName") as [ty|]; [|done].
  destruct (local_type ty) as [t|e]; simpl; [|done].
  destruct (String.eqb t "Bit"); simpl; [done|].
  by destruct (get_default_value (clean_name t) enums).
Qed.

Lemma enum_value_step_Ok_well_formed (key : string)
    (st r : EnumType.t * gmap string Py.value) (x : Element) :
  enum_value_step key st x = Py.Ok r → enum_value_well_formed x = true.
Proof.
  unfold enum_value_step, enum_value_well_formed. destruct st as [i e].
  destruct (Py.endswith (tag x) "EnumeratedValue"); simpl; [|done].
  by destruct (get x "Name").
Qed.

(** X6. [_make_model] returns a model exactly when two things hold.  The
    document is well formed: every enumerated and structured type has a
    name, every enumerated value has a name, and every field has a name
    and, unless the name is an array-length marker, a type name.  And
    [get_default_value] returns, with the side map the first pass has
    built, for the type of every real field declaration (array fields
    included: their default is asked for and then replaced).  In any other
    case [_make_model] raises. *)
Theorem _make_model_returns_iff (root : Element) (model : list entry) :
  (∃ model', _make_model clean_name get_default_value root model = Py.Ok model')
  ↔ forallb type_well_formed (children root) = true
    ∧ ∀ m1 enums,
        Py.for_each (enum_step clean_name) (children root) (model, ∅) = Py.Ok (m1, enums) →
        forallb (defaults_resolved clean_name get_default_value enums) (children root) = true.
Proof.
  split; [|intros [Hwf Hdef]; by apply _make_model_returns].
  intros [model' H]. unfold _make_model in H.
  destruct (Py.for_each (enum_step clean_name) (children root) (model, ∅))
    as [[m1 enums]|e] eqn:H1; simpl in H; [|done].
  split.
  2: { intros m1' enums' [= <- <-]. apply forallb_elem. intros x Hx.
       destruct (for_each_Ok_elem _ _ _ _ x H Hx) as (m & r & Hstep).
       unfold struct_step in Hstep. unfold defaults_resolved.
       destruct (Py.endswith (tag x) "StructuredType"); [|done].
       destruct (get x "Name") as [n|]; simpl in Hstep; [|done].
       destruct (Py.for_each _ (children x) _) as [st|] eqn:Hrun; simpl in Hstep; [|done].
       apply forallb_elem. intros y Hy.
       destruct (for_each_Ok_elem _ _ _ _ y Hrun Hy) as (s' & r' & Hy').
       by eapply field_step_Ok_well_formed. }
  apply forallb_elem. intros x Hx. unfold type_well_formed. apply andb_true_iff. split.
  - destruct (for_each_Ok_elem _ _ _ _ x H1 Hx) as ([m e] & r & Hstep).
    unfold enum_step in Hstep. destruct (Py.endswith (tag x) "EnumeratedType"); [|done].
    destruct (get x "Name") as [n|]; simpl in Hstep; [|done].
    destruct (Py.for_each _ (children x) _) as [st|] eqn:Hrun; simpl in Hstep; [|done].
    simpl. apply forallb_elem. intros y Hy.
    destruct (for_each_Ok_elem _ _ _ _ y Hrun Hy) as (s' & r' & Hy').
    by eapply enum_value_step_Ok_well_formed.
  - destruct (for_each_Ok_elem _ _ _ _ x H Hx) as (m & r & Hstep).
    unfold struct_step in Hstep. destruct (Py.endswith (tag x) "StructuredType"); [|done].
    destruct (get x "Name") as [n|]; simpl in Hstep; [|done].
    destruct (Py.for_each _ (children x) _) as [st|] eqn:Hrun; simpl in Hstep; [|done].
    simpl. apply forallb_elem. intros y Hy.
    destruct (for_each_Ok_elem _ _ _ _ y Hrun Hy) as (s' & r' & Hy').
    by eapply field_step_Ok_well_formed.
Qed.

Lemma for_each_cons {A S : Type} (body : S → A → Py.res S) (x : A) (l : list A) (s : S) :
  Py.for_each body (x :: l) s = body s x ≫= Py.for_each body l.
Proof. reflexivity. Qed.

Lemma enum_step_shift (x : Element) (m0 m1 : list entry) (enums : gmap string Py.value) :
  enum_step clean_name (m0 ++ m1, enums) x
  = match enum_step clean_name (m1, enums) x with
    | Py.Ok (m, enums') => Py.Ok (m0 ++ m, enums')
    | Py.Raise e => Py.Raise e
    end.
Proof.
  unfold enum_step. destruct (Py.endswith (tag x) "EnumeratedType"); [|done].
  destruct (clean_attr clean_name (get x "Name")) as [[raw cleaned]|e]; simpl; [|done].
  destruct (Py.for_each _ (children x) _) as [[intenum e2]|e]; simpl; [|done].
  by rewrite <- app_assoc.
Qed.

Lemma enum_pass_shift (xs : list Element) (m0 m1 : list entry)
    (enums : gmap string Py.value) :
  Py.for_each (enum_step clean_name) xs (m0 ++ m1, enums)
  = match Py.for_each (enum_step clean_name) xs (m1, enums) with
    | Py.Ok (m, enums') => Py.Ok (m0 ++ m, enums')
    | Py.Raise e => Py.Raise e
    end.
Proof.
  revert m1 enums. induction xs as [|x xs IH]; intros m1 enums; [done|].
  rewrite !for_each_cons, enum_step_shift.
  destruct (enum_step clean_name (m1, enums) x) as [[m e']|e]; simpl; [apply IH | done].
Qed.

Lemma struct_step_shift (enums : gmap string Py.value) (x : Element) (m0 m1 : list entry) :
  struct_step clean_name get_default_value enums (m0 ++ m1) x
  = match struct_step clean_name get_default_value enums m1 x with
    | Py.Ok m => Py.Ok (m0 ++ m)
    | Py.Raise e => Py.Raise e
    end.
Proof.
  unfold struct_step. destruct (Py.endswith (tag x) "StructuredType"); [|done].
  destruct (clean_attr clean_name (get x "Name")) as [[raw cleaned]|e]; simpl; [|done].
  destruct (Py.for_each _ (children x) _) as [[a s]|e]; simpl; [|done].
  by rewrite <- app_assoc.
Qed.

Lemma struct_pass_shift (enums : gmap string Py.value) (xs : list Element)
    (m0 m1 : list entry) :
  Py.for_each (struct_step clean_name get_default_value enums) xs (m0 ++ m1)
  = match Py.for_each (struct_step clean_name get_default_value enums) xs m1 with
    | Py.Ok m => Py.Ok (m0 ++ m)
    | Py.Raise e => Py.Raise e
    end.
Proof.
  revert m1. induction xs as [|x xs IH]; intros m1; [done|].
  rewrite !for_each_cons, struct_step_shift.
  destruct (struct_step clean_name get_default_value enums m1 x) as [m|e]; simpl;
    [apply IH | done].
Qed.

(** X7. [_make_model] only appends to the model of the generator, and what
    it appends does not depend on what the model held: on a generator that
    holds [model] already, the result is [model] followed by the result on
    a fresh generator (so a second document puts its enums after the
    structs of the first), and it raises exactly when the fresh one does. *)
Theorem _make_model_appends (root : Element) (model : list entry) :
  _make_model clean_name get_default_value root model
  = match _make_model clean_name get_default_value root [] with
    | Py.Ok fresh => Py.Ok (model ++ fresh)
    | Py.Raise e => Py.Raise e
    end.
Proof.
  unfold _make_model.
  rewrite <- (app_nil_r model) at 1. rewrite enum_pass_shift.
  destruct (Py.for_each (enum_step clean_name) (children root) ([], ∅))
    as [[m1 enums]|e]; simpl; [|done].
  rewrite struct_pass_shift.
  by destruct (Py.for_each (struct_step clean_name get_default_value enums)
                 (children root) m1).
Qed.

(** ** Names of types and of fields *)

Lemma split_no_separator (c : Ascii.ascii) (s : string) :
  Py.contains c s = false → Py.split c s = [s].
Proof.
  induction s as [|a s IH]; simpl; [done|].
  destruct (Ascii.eqb a c); [done|]. intros H. by rewrite IH.
Qed.

Lemma split_at_separator (c : Ascii.ascii) (p rest : string) :
  Py.contains c p = false → Py.split c (p +:+ String c rest) = p :: Py.split c rest.
Proof.
  induction p as [|a p IH]; intros H.
  - rewrite str_app_empty_l. simpl. by rewrite Ascii.eqb_refl.
  - simpl in H. destruct (Ascii.eqb a c) eqn:Ha; [done|].
    rewrite str_app_cons. simpl. by rewrite Ha, IH.
Qed.

Lemma contains_app_separator (c : Ascii.ascii) (p rest : string) :
  Py.contains c (p +:+ String c rest) = true.
Proof.
  induction p as [|a p IH].
  - rewrite str_app_empty_l. simpl. by rewrite Ascii.eqb_refl.
  - rewrite str_app_cons. simpl. by destruct (Ascii.eqb a c).
Qed.

(** X8. A type name without a colon is taken as it is; of a name with
    colons the part between the first and the second colon is taken: the
    namespace prefix is dropped, and so is whatever follows a second
    colon. *)
Theorem local_type_strips_prefix (p t rest : string) :
  Py.contains ":" p = false →
  Py.contains ":" t = false →
  local_type t = Py.Ok t
  ∧ local_type (p +:+ ":" +:+ t) = Py.Ok t
  ∧ local_type (p +:+ ":" +:+ t +:+ ":" +:+ rest) = Py.Ok t.
Proof.
  intros Hp Ht. unfold local_type. split_and!.
  - by rewrite Ht.
  - change (p +:+ ":" +:+ t) with (p +:+ String ":" t).
    rewrite contains_app_separator, split_at_separator by done.
    by rewrite split_no_separator.
  - change (p +:+ ":" +:+ t +:+ ":" +:+ rest) with (p +:+ String ":" (t +:+ String ":" rest)).
    rewrite contains_app_separator, !split_at_separator by done. done.
Qed.

Lemma prefix_iff (p s : string) : String.prefix p s = true ↔ ∃ x, s = p +:+ x.
Proof.
  split.
  - revert s. induction p as [|a p IH]; intros s H; [by exists s|].
    destruct s as [|b s]; simpl in H; [done|].
    destruct (Ascii.ascii_dec a b) as [->|]; [|done].
    apply IH in H as [x ->]. by exists x.
  - intros [x ->]. induction p as [|a p IH].
    + rewrite str_app_empty_l. by destruct x.
    + rewrite str_app_cons. simpl. by destruct (Ascii.ascii_dec a a).
Qed.

Lemma substring_all (s : string) : String.substring 0 (String.length s) s = s.
Proof. induction s as [|a s IH]; simpl; [done | by rewrite IH]. Qed.

Lemma substring_skip (x p : string) (m : nat) :
  String.substring (String.length x) m (x +:+ p) = String.substring 0 m p.
Proof. induction x as [|a x IH]; [done|]. rewrite str_app_cons. simpl. apply IH. Qed.

Lemma substring_split (s : string) (n : nat) :
  n ≤ String.length s →
  s = String.substring 0 n s +:+ String.substring n (String.length s - n) s.
Proof.
  revert n. induction s as [|a s IH]; intros n Hn.
  - simpl in Hn. by replace n with 0 by lia.
  - destruct n as [|n].
    + simpl. by rewrite substring_all.
    + simpl in *. rewrite str_app_cons. f_equal. apply IH. lia.
Qed.

Lemma endswith_iff (s p : string) : Py.endswith s p = true ↔ ∃ x, s = x +:+ p.
Proof.
  unfold Py.endswith. rewrite andb_true_iff, Nat.leb_le, String.eqb_eq. split.
  - intros [Hlen Hsub].
    exists (String.substring 0 (String.length s - String.length p) s).
    rewrite (substring_split s (String.length s - String.length p)) at 1 by lia.
    f_equal. rewrite <- Hsub at 3. f_equal. lia.
  - intros [x ->]. rewrite str_length_app. split; [lia|].
    replace (String.length x + String.length p - String.length p) with (String.length x) by lia.
    by rewrite substring_skip, substring_all.
Qed.

(** X9. The names [_is_array_field] takes for array-length markers are
    exactly those of the three forms [NoOf...], [__...Length] and
    [#...]. *)
Theorem array_marker_names (name : string) :
  _is_array_field name = true
  ↔ (∃ x, name = "NoOf" +:+ x)
    ∨ (∃ x, name = "__" +:+ x +:+ "Length")
    ∨ (∃ x, name = "#" +:+ x).
Proof.
  unfold _is_array_field, Py.startswith.
  destruct (String.prefix "NoOf" name) eqn:H1.
  { apply prefix_iff in H1. by intuition. }
  destruct (String.prefix "#" name) eqn:H3.
  { apply prefix_iff in H3. rewrite Tauto.if_same. by intuition. }
  assert (Hno1 : ¬ ∃ x, name = "NoOf" +:+ x).
  { intros H%prefix_iff. congruence. }
  assert (Hno3 : ¬ ∃ x, name = "#" +:+ x).
  { intros H%prefix_iff. congruence. }
  destruct (String.prefix "__" name && Py.endswith name "Length") eqn:H2.
  - apply andb_true_iff in H2 as [[r Hr]%prefix_iff [y Hy]%endswith_iff].
    split; [|done]. intros _. right. left.
    destruct y as [|a [|b y]].
    + rewrite Hy in Hr. discriminate Hr.
    + rewrite Hy in Hr. discriminate Hr.
    + rewrite Hy in Hr. rewrite !str_app_cons in Hr. injection Hr as -> -> Hr.
      exists y. by rewrite Hy.
  - split; [done|]. intros [?|[[x Hx]|?]]; try done.
    assert (String.prefix "__" name = true) by (apply prefix_iff; eauto).
    assert (Py.endswith name "Length" = true).
    { apply endswith_iff. exists ("__" +:+ x). by rewrite str_app_assoc. }
    apply andb_false_iff in H2 as [?|?]; congruence.
Qed.

(** ** Type identifiers and the registration text *)

Lemma set_typeid_cons (x : entry) (model : list entry) (name typeid : string) :
  set_typeid (x :: model) name typeid
  = if String.eqb (entry_name x) name
    then match x with
         | AnEnum e => AnEnum (EnumType.set_typeid e typeid)
         | AStruct s => AStruct (Struct.set_typeid s typeid)
         end :: model
    else x :: set_typeid model name typeid.
Proof. simpl. by destruct (String.eqb (entry_name x) name), x. Qed.

Lemma set_typeid_forget (model : list entry) (name typeid : string) :
  forget_typeid <$> set_typeid model name typeid = forget_typeid <$> model.
Proof.
  induction model as [|x model IH]; [done|]. rewrite set_typeid_cons.
  destruct (String.eqb (entry_name x) name).
  - by destruct x.
  - by rewrite !fmap_cons, IH.
Qed.

Lemma register_children_forget (structs_dict : gmap string Py.object)
    (ds : list (Description NodeId)) (st : list entry * list (effect NodeId)) :
  forget_typeid <$> (register_children clean_name NodeId to_string get_references
                       structs_dict ds st).1
  = forget_typeid <$> st.1.
Proof.
  revert st. induction ds as [|d ds IH]; intros st; [done|].
  rewrite register_children_cons, IH.
  destruct st as [model effects]. unfold register_child.
  destruct (get_references (Id d)) as [|first rest]; [done|].
  destruct (structs_dict !! clean_name (BrowseName d)); [|done].
  apply set_typeid_forget.
Qed.

Lemma set_typeid_at_first (pre post : list entry) (x : entry) (name typeid : string) :
  name ∉ entry_name <$> pre →
  entry_name x = name →
  ∃ x', set_typeid (pre ++ x :: post) name typeid = pre ++ x' :: post
    ∧ entry_typeid x' = Some typeid
    ∧ forget_typeid x' = forget_typeid x.
Proof.
  intros Hpre Hx. induction pre as [|y pre IH].
  - rewrite app_nil_l, set_typeid_cons, Hx, String.eqb_refl.
    eexists. split; [reflexivity|]. by destruct x.
  - rewrite fmap_cons in Hpre. apply not_elem_of_cons in Hpre as [Hne Hpre].
    destruct (IH Hpre) as (x' & Heq & Hid & Hforget). exists x'.
    rewrite <- app_comm_cons, set_typeid_cons.
    destruct (String.eqb_spec (entry_name y) name) as [?|_]; [congruence|].
    by rewrite Heq.
Qed.

(** X10. [set_typeid] changes type identifiers only: the entries keep
    their kinds, names, fields, option counters and order.  When no entry
    has the name, the model is left as it was. *)
Theorem set_typeid_only_typeid (model : list entry) (name typeid : string) :
  forget_typeid <$> set_typeid model name typeid = forget_typeid <$> model
  ∧ (name ∉ entry_name <$> model → set_typeid model name typeid = model).
Proof.
  split; [apply set_typeid_forget|].
  - induction model as [|x model IH]; [done|]. rewrite set_typeid_cons, fmap_cons.
    intros Hnot%not_elem_of_cons. destruct Hnot as [Hne Hnot].
    destruct (String.eqb_spec (entry_name x) name) as [Heq|_]; [congruence|].
    by rewrite IH.
Qed.

(** X11. [set_typeid] sets the type identifier of the first entry that has
    the name, enum or struct, and of no other: entries of the same name
    further on keep theirs. *)
Theorem set_typeid_first_match (pre post : list entry) (x : entry) (name typeid : string) :
  name ∉ entry_name <$> pre →
  entry_name x = name →
  ∃ x', set_typeid (pre ++ x :: post) name typeid = pre ++ x' :: post
    ∧ entry_typeid x' = Some typeid
    ∧ forget_typeid x' = forget_typeid x.
Proof. apply set_typeid_at_first. Qed.

(** X13. Of two type identifiers set for the same name the later one
    stays. *)
Theorem set_typeid_last_wins (model : list entry) (name first second : string) :
  set_typeid (set_typeid model name first) name second = set_typeid model name second.
Proof.
  induction model as [|x model IH]; [done|]. rewrite !set_typeid_cons.
  destruct (String.eqb (entry_name x) name) eqn:Hx.
  - rewrite set_typeid_cons.
    assert (Hname : entry_name (match x with
                                | AnEnum e => AnEnum (EnumType.set_typeid e first)
                                | AStruct s => AStruct (Struct.set_typeid s first)
                                end) = entry_name x) by (by destruct x).
    rewrite Hname, Hx. by destruct x.
  - by rewrite set_typeid_cons, Hx, IH.
Qed.

Lemma registration_line_app (code : string) (x : entry) :
  registration_line code x = code +:+ registration_line "" x.
Proof. destruct x; simpl; [by rewrite str_app_empty_r | by rewrite str_app_empty_l]. Qed.

Lemma registration_fold (model : list entry) (code : string) :
  fold_left registration_line model code
  = code +:+ String.concat ""
               (registration_line "" <$> filter (λ x, is_struct x = true) model).
Proof.
  revert code. induction model as [|x model IH]; intros code.
  - simpl. by rewrite str_app_empty_r.
  - simpl fold_left. rewrite IH, registration_line_app, str_app_assoc. f_equal.
    destruct x as [e|s].
    + rewrite filter_cons_False by (cbv; congruence). simpl. by rewrite str_app_empty_l.
    + rewrite filter_cons_True by done. by rewrite fmap_cons, concat_cons.
Qed.


(** X12. When the first entry that has the name is an enum, [set_typeid]
    gives the identifier to the enum: a struct of the same name further on
    is not touched, and the registration text is what it was before. *)
Theorem set_typeid_enum_shadows_struct (pre post : list entry) (e : EnumType.t)
    (typeid : string) :
  EnumType.name e ∉ entry_name <$> pre →
  let model := pre ++ AnEnum e :: post in
  let model' := set_typeid model (EnumType.name e) typeid in
  model' = pre ++ AnEnum (EnumType.set_typeid e typeid) :: post
  ∧ filter (λ x, is_struct x = true) model' = filter (λ x, is_struct x = true) model
  ∧ _make_registration model' = _make_registration model.
Proof.
  intros Hpre. cbv zeta.
  assert (Heq : set_typeid (pre ++ AnEnum e :: post) (EnumType.name e) typeid
                = pre ++ AnEnum (EnumType.set_typeid e typeid) :: post).
  { induction pre as [|y pre IH].
    - by rewrite app_nil_l, set_typeid_cons, String.eqb_refl.
    - rewrite fmap_cons in Hpre. apply not_elem_of_cons in Hpre as [Hne Hpre].
      rewrite <- !app_comm_cons, set_typeid_cons.
      destruct (String.eqb_spec (entry_name y) (EnumType.name e)) as [?|_]; [congruence|].
      by rewrite IH. }
  assert (Hfilter : filter (λ x, is_struct x = true)
                      (pre ++ AnEnum (EnumType.set_typeid e typeid) :: post)
                    = filter (λ x, is_struct x = true) (pre ++ AnEnum e :: post)).
  { rewrite !filter_app. reflexivity. }
  rewrite Heq. split; [done|]. split; [done|].
  unfold _make_registration. by rewrite !registration_fold, Hfilter.
Qed.

(** X15. The registration loop keeps the shape of the generator's model:
    whatever the descriptors are, the entries afterwards are the entries
    before, up to their type identifiers; and the effects made before the
    loop are still there, in order, before the new ones. *)
Theorem register_children_keeps_model (structs_dict : gmap string Py.object)
    (ds : list (Description NodeId)) (st : list entry * list (effect NodeId)) :
  let st' := register_children clean_name NodeId to_string get_references
               structs_dict ds st in
  forget_typeid <$> st'.1 = forget_typeid <$> st.1
  ∧ ∃ more, st'.2 = st.2 ++ more.
Proof.
  cbv zeta. split; [apply register_children_forget | apply register_children_effects].
Qed.

(** X16. A descriptor without a description reference is passed over in
    silence, whether the type map knows its name or not: no warning, no
    registration, no type identifier. *)
Theorem descriptor_without_reference_ignored (structs_dict : gmap string Py.object)
    (pre post : list (Description NodeId)) (d : Description NodeId)
    (st : list entry * list (effect NodeId)) :
  get_references (Id d) = [] →
  register_children clean_name NodeId to_string get_references structs_dict
    (pre ++ d :: post) st
  = register_children clean_name NodeId to_string get_references structs_dict
      (pre ++ post) st.
Proof.
  intros Hrefs. rewrite !register_children_app, register_children_cons. f_equal.
  destruct (register_children _ _ _ _ _ pre st) as [model effects].
  unfold register_child. by rewrite Hrefs.
Qed.

(** X17. A descriptor with a description reference and a class of its
    name is registered under the identifier of its first reference, and
    the first entry of the model with that name gets that identifier as
    its type identifier, in the form [to_string] gives. *)
Theorem matched_descriptor_bound (structs_dict : gmap string Py.object)
    (pre post : list entry) (x : entry) (effects : list (effect NodeId))
    (d first : Description NodeId) (rest : list (Description NodeId)) (class : Py.object) :
  get_references (Id d) = first :: rest →
  structs_dict !! clean_name (BrowseName d) = Some class →
  clean_name (BrowseName d) ∉ entry_name <$> pre →
  entry_name x = clean_name (BrowseName d) →
  ∃ x', register_child clean_name NodeId to_string get_references structs_dict
          (pre ++ x :: post, effects) d
        = (pre ++ x' :: post,
           effects ++ [Register (clean_name (BrowseName d)) (Id first) class])
    ∧ entry_typeid x' = Some (to_string (Id first))
    ∧ forget_typeid x' = forget_typeid x.
Proof.
  intros Hrefs Hclass Hpre Hx. unfold register_child. rewrite Hrefs, Hclass.
  destruct (set_typeid_at_first pre post x (clean_name (BrowseName d))
              (to_string (Id first)) Hpre Hx) as (x' & -> & Hid & Hforget).
  by exists x'.
Qed.

(** ** The libraries of the target namespace *)

Lemma setdefault_keeps (key k : string) (o v : Py.object) (env : gmap string Py.object) :
  env !! key = Some o → setdefault k v env !! key = Some o.
Proof.
  intros H. unfold setdefault. destruct (env !! k) eqn:Hk; [done|].
  rewrite lookup_insert_ne; [done|]. congruence.
Qed.

Lemma setdefault_keeps_Some (key k : string) (v : Py.object) (env : gmap string Py.object) :
  is_Some (env !! key) → is_Some (setdefault k v env !! key).
Proof. intros [o Ho]. exists o. by apply setdefault_keeps. Qed.

Lemma setdefault_other (key k : string) (v : Py.object) (env : gmap string Py.object) :
  k ≠ key → setdefault k v env !! key = env !! key.
Proof.
  intros H. unfold setdefault. destruct (env !! k); [done|]. by rewrite lookup_insert_ne.
Qed.

Lemma setdefault_bound (k : string) (v : Py.object) (env : gmap string Py.object) :
  is_Some (setdefault k v env !! k).
Proof.
  unfold setdefault. destruct (env !! k) eqn:Hk; [by rewrite Hk|].
  rewrite lookup_insert_eq. by eexists.
Qed.

(** The two tests of [add_libraries] that guard another name. *)
Lemma datetime_test_other (key : string) (env : gmap string Py.object) :
  key ≠ "datetime" → key ≠ "timezone" →
  match env !! "datetime" with
  | Some _ => env
  | None => <["timezone" := Py.Lib "timezone"]> (<["datetime" := Py.Lib "datetime"]> env)
  end !! key = env !! key.
Proof. intros ??. destruct (env !! "datetime"); [done|]. by rewrite !lookup_insert_ne. Qed.

Lemma datetime_test_keeps (key : string) (env : gmap string Py.object) :
  is_Some (env !! key) →
  is_Some (match env !! "datetime" with
           | Some _ => env
           | None => <["timezone" := Py.Lib "timezone"]>
                       (<["datetime" := Py.Lib "datetime"]> env)
           end !! key).
Proof.
  intros H. destruct (env !! "datetime"); [done|].
  rewrite !lookup_insert. repeat case_decide; eauto.
Qed.

Lemma datetime_test_bound (env : gmap string Py.object) :
  is_Some (match env !! "datetime" with
           | Some _ => env
           | None => <["timezone" := Py.Lib "timezone"]>
                       (<["datetime" := Py.Lib "datetime"]> env)
           end !! "datetime").
Proof.
  destruct (env !! "datetime") eqn:H; [by rewrite H|].
  rewrite lookup_insert_ne by done. rewrite lookup_insert_eq. by eexists.
Qed.

Lemma enum_test_other (key : string) (env : gmap string Py.object) :
  key ≠ "IntEnum" →
  match env !! "enum" with
  | Some _ => env
  | None => <["IntEnum" := Py.Lib "IntEnum"]> env
  end !! key = env !! key.
Proof. intros ?. destruct (env !! "enum"); [done|]. by rewrite lookup_insert_ne. Qed.

Lemma enum_test_keeps (key : string) (env : gmap string Py.object) :
  is_Some (env !! key) →
  is_Some (match env !! "enum" with
           | Some _ => env
           | None => <["IntEnum" := Py.Lib "IntEnum"]> env
           end !! key).
Proof.
  intros H. destruct (env !! "enum"); [done|].
  rewrite lookup_insert. case_decide; eauto.
Qed.

Lemma add_libraries_unfold (env : gmap string Py.object) :
  add_libraries env
  = setdefault "Optional" (Py.Lib "Optional")
      (setdefault "List" (Py.Lib "List")
         (setdefault "field" (Py.Lib "field")
            (setdefault "dataclass" (Py.Lib "dataclass")
               (match setdefault "uuid" (Py.Lib "uuid")
                        (match setdefault "ua" (Py.Lib "ua") env !! "datetime" with
                         | Some _ => setdefault "ua" (Py.Lib "ua") env
                         | None => <["timezone" := Py.Lib "timezone"]>
                                     (<["datetime" := Py.Lib "datetime"]>
                                        (setdefault "ua" (Py.Lib "ua") env))
                         end) !! "enum" with
                | Some _ =>
                    setdefault "uuid" (Py.Lib "uuid")
                      (match setdefault "ua" (Py.Lib "ua") env !! "datetime" with
                       | Some _ => setdefault "ua" (Py.Lib "ua") env
                       | None => <["timezone" := Py.Lib "timezone"]>
                                   (<["datetime" := Py.Lib "datetime"]>
                                      (setdefault "ua" (Py.Lib "ua") env))
                       end)
                | None =>
                    <["IntEnum" := Py.Lib "IntEnum"]>
                      (setdefault "uuid" (Py.Lib "uuid")
                         (match setdefault "ua" (Py.Lib "ua") env !! "datetime" with
                          | Some _ => setdefault "ua" (Py.Lib "ua") env
                          | None => <["timezone" := Py.Lib "timezone"]>
                                      (<["datetime" := Py.Lib "datetime"]>
                                         (setdefault "ua" (Py.Lib "ua") env))
                          end))
                end)))).
Proof. reflexivity. Qed.

Ltac libraries_other key :=
  repeat first [ rewrite (enum_test_other key) by congruence
               | rewrite (datetime_test_other key) by congruence
               | rewrite (setdefault_other key) by congruence ].

Ltac libraries_keep :=
  repeat first [ apply setdefault_keeps_Some
               | apply enum_test_keeps
               | apply datetime_test_keeps ].

Lemma add_libraries_other (env : gmap string Py.object) (key : string) :
  key ∉ library_names → add_libraries env !! key = env !! key.
Proof.
  intros Hkey. unfold library_names in Hkey.
  rewrite !not_elem_of_cons in Hkey.
  destruct Hkey as (? & ? & ? & ? & ? & ? & ? & ? & ? & _).
  rewrite add_libraries_unfold. by libraries_other key.
Qed.

Lemma add_libraries_keeps_Some (env : gmap string Py.object) (key : string) :
  is_Some (env !! key) → is_Some (add_libraries env !! key).
Proof. intros H. rewrite add_libraries_unfold. by libraries_keep. Qed.

Lemma add_libraries_timezone (env : gmap string Py.object) :
  add_libraries env !! "timezone"
  = match env !! "datetime" with
    | Some _ => env !! "timezone"
    | None => Some (Py.Lib "timezone")
    end.
Proof.
  rewrite add_libraries_unfold.
  rewrite !(setdefault_other "timezone") by done.
  rewrite enum_test_other by done. rewrite setdefault_other by done.
  rewrite (setdefault_other "datetime") by done.
  destruct (env !! "datetime"); [by rewrite setdefault_other | by rewrite lookup_insert_eq].
Qed.

Lemma add_libraries_IntEnum (env : gmap string Py.object) :
  add_libraries env !! "IntEnum"
  = match env !! "enum" with
    | Some _ => env !! "IntEnum"
    | None => Some (Py.Lib "IntEnum")
    end.
Proof.
  rewrite add_libraries_unfold.
  rewrite !(setdefault_other "IntEnum") by done.
  rewrite (setdefault_other "enum") by done.
  rewrite (datetime_test_other "enum") by done.
  rewrite (setdefault_other "enum") by done.
  destruct (env !! "enum").
  - by libraries_other "IntEnum".
  - by rewrite lookup_insert_eq.
Qed.

Lemma add_libraries_bound (env : gmap string Py.object) :
  Forall (λ name, is_Some (add_libraries env !! name))
    ["ua"; "datetime"; "uuid"; "dataclass"; "field"; "List"; "Optional"].
Proof.
  rewrite add_libraries_unfold. repeat apply Forall_cons_2; [..|by apply Forall_nil].
  - do 4 apply setdefault_keeps_Some. apply enum_test_keeps, setdefault_keeps_Some,
      datetime_test_keeps, setdefault_bound.
  - do 4 apply setdefault_keeps_Some. apply enum_test_keeps, setdefault_keeps_Some,
      datetime_test_bound.
  - do 4 apply setdefault_keeps_Some. apply enum_test_keeps, setdefault_bound.
  - do 3 apply setdefault_keeps_Some. apply setdefault_bound.
  - do 2 apply setdefault_keeps_Some. apply setdefault_bound.
  - apply setdefault_keeps_Some, setdefault_bound.
  - apply setdefault_bound.
Qed.

(** X18. [add_libraries] never unbinds a name, changes no name outside the
    nine library names, and keeps every binding the namespace had except,
    possibly, those of [IntEnum] and [timezone]. *)
Theorem add_libraries_preserves (env : gmap string Py.object) :
  (∀ key o, env !! key = Some o → key ≠ "IntEnum" → key ≠ "timezone" →
            add_libraries env !! key = Some o)
  ∧ (∀ key, key ∉ library_names → add_libraries env !! key = env !! key)
  ∧ (∀ key, is_Some (env !! key) → is_Some (add_libraries env !! key)).
Proof.
  split; [|split; [apply add_libraries_other | apply add_libraries_keeps_Some]].
  intros key o H Hi Ht. rewrite add_libraries_unfold.
  do 4 apply setdefault_keeps. rewrite enum_test_other by done.
  apply setdefault_keeps.
  assert (H1 : setdefault "ua" (Py.Lib "ua") env !! key = Some o) by by apply setdefault_keeps.
  destruct (setdefault "ua" (Py.Lib "ua") env !! "datetime") eqn:Hd; [done|].
  rewrite !lookup_insert_ne; [done | congruence | done].
Qed.

(** X19. After [add_libraries] the names [ua], [datetime], [uuid],
    [dataclass], [field], [List] and [Optional] are bound.  The tests for
    the other two are on [datetime] and on [enum]: a namespace without
    [datetime] gets the library's [timezone], and one without [enum] the
    library's [IntEnum], whatever it had bound to these names; otherwise
    [timezone] and [IntEnum] are left as they were, bound or not. *)
Theorem add_libraries_binds (env : gmap string Py.object) :
  Forall (λ name, is_Some (add_libraries env !! name))
    ["ua"; "datetime"; "uuid"; "dataclass"; "field"; "List"; "Optional"]
  ∧ add_libraries env !! "timezone"
    = match env !! "datetime" with
      | Some _ => env !! "timezone"
      | None => Some (Py.Lib "timezone")
      end
  ∧ add_libraries env !! "IntEnum"
    = match env !! "enum" with
      | Some _ => env !! "IntEnum"
      | None => Some (Py.Lib "IntEnum")
      end.
Proof.
  split; [apply add_libraries_bound|].
  split; [apply add_libraries_timezone | apply add_libraries_IntEnum].
Qed.

Lemma add_libraries_fixed (env : gmap string Py.object) :
  Forall (λ name, is_Some (env !! name))
    ["ua"; "datetime"; "uuid"; "dataclass"; "field"; "List"; "Optional"] →
  (env !! "enum" = None → env !! "IntEnum" = Some (Py.Lib "IntEnum")) →
  add_libraries env = env.
Proof.
  intros Hall Henum.
  apply Forall_cons in Hall as [[o1 H1] Hall]. apply Forall_cons in Hall as [[o2 H2] Hall].
  apply Forall_cons in Hall as [[o3 H3] Hall]. apply Forall_cons in Hall as [[o4 H4] Hall].
  apply Forall_cons in Hall as [[o5 H5] Hall]. apply Forall_cons in Hall as [[o6 H6] Hall].
  apply Forall_cons in Hall as [[o7 H7] _].
  unfold add_libraries, setdefault. rewrite H1. cbv zeta. rewrite H2, H3.
  destruct (env !! "enum") eqn:He.
  - by rewrite H4, H5, H6, H7.
  - rewrite (insert_id env "IntEnum") by auto. by rewrite H4, H5, H6, H7.
Qed.

(** X20. [add_libraries] is idempotent: on a namespace it has prepared it
    changes nothing. *)
Theorem add_libraries_idempotent (env : gmap string Py.object) :
  add_libraries (add_libraries env) = add_libraries env.
Proof.
  apply add_libraries_fixed; [apply add_libraries_bound|].
  rewrite add_libraries_other
    by (unfold library_names; repeat (apply not_elem_of_cons; split; [done|]);
        apply not_elem_of_nil).
  intros H. by rewrite add_libraries_IntEnum, H.
Qed.

(** ** Loading, then saving *)

Lemma exec_each_model_after (model : list entry) (env : gmap string Py.object) :
  raised (exec_each clean_name exec model env) = None →
  model_after (exec_each clean_name exec model env)
  = (λ x, (get_code clean_name x).2) <$> model.
Proof.
  revert env. induction model as [|x model IH]; intros env; [done|].
  rewrite exec_each_cons.
  destruct (exec (get_code clean_name x).1 env) as [env'|env']; cbn [raised model_after]; [|done].
  intros H. by rewrite fmap_cons, IH.
Qed.

(** X21. A load that returns has rendered every entry of the model once,
    in order: the model afterwards is the model with [get_code] applied to
    each entry, so each struct with optional fields has got its field
    [Encoding]. *)
Theorem load_renders_each_entry_once (model : list entry)
    (env : option (gmap string Py.object)) (ua_dict : gmap string Py.object) :
  let r := _generate_python_class clean_name exec model env ua_dict in
  raised r = None →
  model_after r = (λ x, (get_code clean_name x).2) <$> model.
Proof. cbv zeta. unfold _generate_python_class. apply exec_each_model_after. Qed.

(** X22. Loading a model in two parts: when the load of the first part
    returns, the load of the whole is the load of the second part into the
    namespace the first has left. *)
Theorem load_in_two_parts (m1 m2 : list entry) (env : gmap string Py.object) :
  let r1 := exec_each clean_name exec m1 env in
  let r2 := exec_each clean_name exec m2 (namespace r1) in
  raised r1 = None →
  exec_each clean_name exec (m1 ++ m2) env
  = Loaded (namespace r2) (model_after r1 ++ model_after r2) (raised r2).
Proof.
  cbv zeta. revert env. induction m1 as [|x m1 IH]; intros env.
  - intros _. simpl. by destruct (exec_each clean_name exec m2 env).
  - rewrite <- app_comm_cons, !exec_each_cons.
    destruct (exec (get_code clean_name x).1 env) as [env'|env']; cbn [raised namespace model_after];
      [|done].
    intros H. by rewrite IH.
Qed.

Lemma write_codes_text (model : list entry) (file : string) :
  write_codes clean_name model file
  = (file +:+ String.concat "" ((λ x, (get_code clean_name x).1) <$> model),
     (λ x, (get_code clean_name x).2) <$> model).
Proof.
  revert file. induction model as [|x model IH]; intros file.
  - simpl. by rewrite str_app_empty_r.
  - cbn [write_codes]. destruct (get_code clean_name x) as [code x'] eqn:Hx.
    rewrite IH, !fmap_cons, concat_cons, Hx. cbn [fst snd]. by rewrite str_app_assoc.
Qed.

Lemma get_code_keeps_registration (x : entry) :
  registration_line "" (get_code clean_name x).2 = registration_line "" x
  ∧ is_struct (get_code clean_name x).2 = is_struct x.
Proof.
  destruct x as [e|s]; [done|]. simpl. unfold struct_get_code.
  by destruct (0 <? Struct.option_counter s).
Qed.

Lemma registration_after_get_code (model : list entry) :
  _make_registration ((λ x, (get_code clean_name x).2) <$> model) = _make_registration model.
Proof.
  unfold _make_registration. rewrite !registration_fold. do 2 f_equal.
  induction model as [|x model IH]; [done|].
  destruct (get_code_keeps_registration x) as [Hline Hkind]. rewrite fmap_cons.
  destruct (is_struct x) eqn:Hx.
  - rewrite !filter_cons_True by congruence. by rewrite !fmap_cons, Hline, IH.
  - rewrite !filter_cons_False by congruence. done.
Qed.

Lemma save_to_file_spec (model : list entry) (register : bool) :
  save_to_file clean_name model register
  = (_make_header
     +:+ String.concat "" ((λ x, (get_code clean_name x).1) <$> model)
     +:+ (if register then _make_registration model else ""),
     (λ x, (get_code clean_name x).2) <$> model).
Proof.
  unfold save_to_file. rewrite write_codes_text.
  destruct register.
  - by rewrite registration_after_get_code, str_app_assoc.
  - by rewrite str_app_empty_r.
Qed.

(** X23. The file [save_to_file] writes is the header, then the text of
    [get_code] for each entry in order, then, when asked for, the
    registration text of the model; and the model afterwards has been
    rendered once more. *)
Theorem save_to_file_text (model : list entry) (register : bool) :
  save_to_file clean_name model register
  = (_make_header
     +:+ String.concat "" ((λ x, (get_code clean_name x).1) <$> model)
     +:+ (if register then _make_registration model else ""),
     (λ x, (get_code clean_name x).2) <$> model).
Proof. apply save_to_file_spec. Qed.

Lemma get_code_forget (x y : entry) :
  forget_typeid x = forget_typeid y →
  (get_code clean_name x).1 = (get_code clean_name y).1
  ∧ forget_typeid (get_code clean_name x).2 = forget_typeid (get_code clean_name y).2.
Proof.
  destruct x as [[n1 f1 t1]|[n1 f1 t1 c1]], y as [[n2 f2 t2]|[n2 f2 t2 c2]]; try done.
  - intros [= -> ->]. done.
  - intros [= -> -> ->]. simpl. unfold struct_get_code. simpl.
    by destruct (0 <? c2).
Qed.

Lemma texts_forget (m1 m2 : list entry) :
  forget_typeid <$> m1 = forget_typeid <$> m2 →
  (λ x, (get_code clean_name x).1) <$> m1 = (λ x, (get_code clean_name x).1) <$> m2.
Proof.
  revert m2. induction m1 as [|x m1 IH]; intros [|y m2]; try done.
  rewrite !fmap_cons. intros [= Hx Hrest].
  f_equal; [by apply get_code_forget | by apply IH].
Qed.

Lemma get_code_AStruct (s : Struct.t) :
  get_code clean_name (AStruct s) = ((struct_get_code s).1, AStruct (struct_get_code s).2).
Proof. simpl. by destruct (struct_get_code s). Qed.

Lemma second_text_differs (s : Struct.t) :
  0 < Struct.option_counter s →
  (struct_get_code (struct_get_code s).2).1 ≠ (struct_get_code s).1.
Proof.
  intros Hpos. rewrite (struct_get_code_positive s Hpos). cbn [fst snd].
  rewrite struct_get_code_positive by done. cbn [fst Struct.name Struct.fields Struct.set_fields].
  assert (Hemit : emitted_fields (encoding_field :: Struct.fields s)
                  = encoding_field :: emitted_fields (Struct.fields s)) by done.
  rewrite Hemit, !fmap_cons, !concat_cons.
  intros Heq. apply (f_equal String.length) in Heq.
  rewrite !str_length_app in Heq. simpl in Heq. lia.
Qed.

(** X24. Saving after loading, as the command line tool does: when the
    load has returned and the children of the node have been registered,
    the file holds, for each entry, the text of a second call of
    [get_code]; for a struct with a positive option counter that text is
    not the text that was executed (it has the line of [Encoding] twice). *)
Theorem saved_text_after_load (model : list entry) (env : gmap string Py.object)
    (structs_dict : gmap string Py.object) (ds : list (Description NodeId))
    (effects : list (effect NodeId)) (register : bool) :
  let r := exec_each clean_name exec model env in
  let registered := (register_children clean_name NodeId to_string get_references
                       structs_dict ds (model_after r, effects)).1 in
  raised r = None →
  (save_to_file clean_name registered register).1
  = _make_header
    +:+ String.concat ""
          ((λ x, (get_code clean_name (get_code clean_name x).2).1) <$> model)
    +:+ (if register then _make_registration registered else "")
  ∧ ∀ s, AStruct s ∈ model → 0 < Struct.option_counter s →
      (get_code clean_name (get_code clean_name (AStruct s)).2).1
      ≠ (get_code clean_name (AStruct s)).1.
Proof.
  cbv zeta. intros Hload. split.
  - rewrite save_to_file_spec. cbn [fst]. do 2 f_equal.
    rewrite (texts_forget _ (model_after (exec_each clean_name exec model env)))
      by apply register_children_forget.
    rewrite exec_each_model_after by done. by rewrite <- list_fmap_compose.
  - intros s _ Hpos. rewrite (get_code_AStruct s). cbn [fst snd].
    rewrite get_code_AStruct. cbn [fst]. by apply second_text_differs.
Qed.

(** ** Enumerations read from the server *)

Lemma comprehension_Ok {A B : Type} (f : A → Py.res B) (g : A → B) (l : list A) :
  Forall (λ x, f x = Py.Ok (g x)) l → comprehension f l = Py.Ok (g <$> l).
Proof.
  induction 1 as [|x l Hx _ IH]; [done|]. simpl. by rewrite Hx, IH.
Qed.

Lemma comprehension_Raise {A B : Type} (f : A → Py.res B) (e : Py.exn) (l : list A) :
  Forall (λ x, (∃ y, f x = Py.Ok y) ∨ f x = Py.Raise e) l →
  Exists (λ x, f x = Py.Raise e) l →
  comprehension f l = Py.Raise e.
Proof.
  induction 1 as [|x l Hx Hl IH]; intros Hex; [by apply Exists_nil in Hex|].
  simpl. destruct Hx as [[y Hy]|Hx].
  - rewrite Hy. simpl. apply Exists_cons in Hex as [Hex|Hex]; [congruence|].
    by rewrite IH.
  - by rewrite Hx.
Qed.

Lemma enumerate_lookup {A : Type} (idx : nat) (val : list A) (p : nat * A) :
  p ∈ enumerate idx val → val !! (p.1 - idx) = Some p.2 ∧ idx ≤ p.1.
Proof.
  revert idx. induction val as [|x val IH]; intros idx Hp; [by apply elem_of_nil in Hp|].
  simpl in Hp. apply elem_of_cons in Hp as [->|Hp].
  - simpl. by rewrite Nat.sub_diag.
  - apply IH in Hp as [Hp Hle]. split; [|lia].
    replace (p.1 - idx) with (S (p.1 - S idx)) by lia. done.
Qed.

Lemma enumerate_snd {A : Type} (idx : nat) (val : list A) :
  snd <$> enumerate idx val = val.
Proof. revert idx. induction val as [|x val IH]; intros idx; [done|]. simpl. by rewrite IH. Qed.

Lemma enumerate_length {A : Type} (idx : nat) (val : list A) :
  length (enumerate idx val) = length val.
Proof. revert idx. induction val as [|x val IH]; intros idx; [done|]. simpl. by rewrite IH. Qed.

(** X25. [_get_enum_strings] raises [AttributeError] exactly when one of
    the localized texts has no text; otherwise it returns an enumeration
    with as many members as there are texts. *)
Theorem enum_strings_raises_iff (name : string) (val : list (option string)) :
  (None ∈ val ↔ _get_enum_strings clean_name name val = Py.Raise Py.AttributeError)
  ∧ (None ∉ val ↔
     ∃ c, _get_enum_strings clean_name name val = Py.Ok c
          ∧ length (EnumType.fields c) = length val).
Proof.
  assert (Hraise : None ∈ val →
                   _get_enum_strings clean_name name val = Py.Raise Py.AttributeError).
  { intros Hin. unfold _get_enum_strings.
    rewrite (comprehension_Raise _ Py.AttributeError); [done| |].
    - apply Forall_forall. intros [i [st|]] _; [left; by eexists | by right].
    - apply Exists_exists. apply list_elem_of_lookup in Hin as [i Hi].
      assert (Hsnd : None ∈ snd <$> enumerate 0 val) by (rewrite enumerate_snd;
        by eapply list_elem_of_lookup_2).
      apply list_elem_of_fmap in Hsnd as ([j [st|]] & Heq & Hp); [done|].
      by exists (j, None). }
  assert (Hok : None ∉ val →
                ∃ c, _get_enum_strings clean_name name val = Py.Ok c
                     ∧ length (EnumType.fields c) = length val).
  { intros Hnot. unfold _get_enum_strings.
    rewrite (comprehension_Ok _
               (λ p, EnumeratedValue.init (default "" p.2) (Py.Int (Z.of_nat p.1)))).
    - eexists. split; [reflexivity|]. simpl.
      by rewrite length_fmap, enumerate_length.
    - apply Forall_forall. intros [i [st|]] Hp; [done|].
      apply enumerate_lookup in Hp as [Hp _]. simpl in Hp.
      by apply list_elem_of_lookup_2 in Hp. }
  split; split; try done.
  - intros H. destruct (decide (None ∈ val)) as [|Hnot]; [done|].
    apply Hok in Hnot as (c & Hc & _). congruence.
  - intros (c & Hc & _) Hin. apply Hraise in Hin. congruence.
Qed.

(** X26. [_get_enum_values] keeps the server's values: the enumeration has
    one member per enumeration value, in order, each with the value the
    server gave and the sanitized display text; with a display text
    missing it raises [AttributeError]. *)
Theorem enum_values_kept (name : string) (pairs : list (string * Z))
    (val : list (option string * Z)) :
  _get_enum_values clean_name name ((λ p, (Some p.1, p.2)) <$> pairs)
  = Py.Ok (EnumType.mk (clean_name name)
             ((λ p, EnumeratedValue.init p.1 (Py.Int p.2)) <$> pairs) None)
  ∧ (None ∈ fst <$> val →
     _get_enum_values clean_name name val = Py.Raise Py.AttributeError).
Proof.
  split.
  - unfold _get_enum_values.
    rewrite (comprehension_Ok _
               (λ p, EnumeratedValue.init (default "" p.1) (Py.Int p.2))).
    + simpl. unfold EnumType.set_fields. simpl. do 2 f_equal.
      rewrite <- list_fmap_compose. by apply list_fmap_ext.
    + apply Forall_forall. intros [t v] Hp.
      apply list_elem_of_fmap in Hp as (q & [= -> ->] & _). done.
  - intros Hin. unfold _get_enum_values.
    rewrite (comprehension_Raise _ Py.AttributeError); [done| |].
    + apply Forall_forall. intros [[t|] v] _; [left; by eexists | by right].
    + apply Exists_exists. apply list_elem_of_fmap in Hin as ([[t|] v] & Heq & Hp); [done|].
      by exists (None, v).
Qed.

(** ** Loading the enumerations of a server *)

Variable enum_data_types : list (Description NodeId).
Variable get_properties : NodeId → list (Description NodeId).
Variable read_strings : NodeId → list (option string).
Variable read_values : NodeId → list (option string * Z).

Lemma enum_type_step_known (ua_dict : gmap string Py.object) (d : Description NodeId)
    (model : list entry) (log : list (log_record NodeId)) :
  is_Some (ua_dict !! BrowseName d) →
  enum_type_step clean_name NodeId get_properties read_strings read_values
    false ua_dict (model, log) d
  = Py.Ok (model, log ++ [AlreadyKnown (BrowseName d)]).
Proof.
  intros Hd. unfold enum_type_step. cbv zeta. by rewrite bool_decide_eq_true_2 by done.
Qed.

Lemma property_step_unexpected (desc c : Description NodeId)
    (st : option EnumType.t * list (log_record NodeId)) :
  BrowseName c ≠ "EnumStrings" → BrowseName c ≠ "EnumValues" →
  property_step clean_name NodeId read_strings read_values desc st c
  = Py.Ok (st.1, st.2 ++ [UnexpectedChild desc c]).
Proof.
  intros Hs%String.eqb_neq Hv%String.eqb_neq. destruct st as [c0 log].
  unfold property_step. cbv zeta. by rewrite Hs, Hv.
Qed.

Lemma known_enums_skipped (ua_dict : gmap string Py.object)
    (ds : list (Description NodeId)) (model : list entry) (log : list (log_record NodeId)) :
  Forall (λ d, is_Some (ua_dict !! BrowseName d)) ds →
  Py.for_each (enum_type_step clean_name NodeId get_properties read_strings read_values
                 false ua_dict) ds (model, log)
  = Py.Ok (model, log ++ (AlreadyKnown ∘ BrowseName <$> ds)).
Proof.
  intros Hall. revert log. induction Hall as [|d ds Hd _ IH]; intros log.
  - simpl. by rewrite app_nil_r.
  - rewrite for_each_cons, enum_type_step_known by done. simpl.
    rewrite IH. by rewrite <- app_assoc.
Qed.

(** X27. Without [force], when every enumeration of the server already has
    its name bound in [ua], [load_enums] generates nothing: it logs each
    name as known, executes no text, and returns the target namespace with
    the libraries added. *)
Theorem load_enums_all_known (env : option (gmap string Py.object))
    (ua_dict : gmap string Py.object) :
  Forall (λ d, is_Some (ua_dict !! BrowseName d)) enum_data_types →
  load_enums clean_name exec NodeId enum_data_types get_properties read_strings
    read_values env false ua_dict
  = Py.Ok (Loaded (add_libraries (default ua_dict env)) [] None,
           AlreadyKnown ∘ BrowseName <$> enum_data_types).
Proof.
  intros Hall. unfold load_enums. rewrite known_enums_skipped by done. simpl.
  by destruct env.
Qed.

(** X28. An enumeration that is to be generated (forced, or not bound in
    [ua]) but whose node has no property named [EnumStrings] or
    [EnumValues] adds no entry to the model; each of its properties is
    logged as unexpected. *)
Theorem enum_without_values_left_out (force : bool) (ua_dict : gmap string Py.object)
    (model : list entry) (log : list (log_record NodeId)) (desc : Description NodeId) :
  force = true ∨ ua_dict !! BrowseName desc = None →
  Forall (λ c, BrowseName c ≠ "EnumStrings" ∧ BrowseName c ≠ "EnumValues")
    (get_properties (Id desc)) →
  enum_type_step clean_name NodeId get_properties read_strings read_values
    force ua_dict (model, log) desc
  = Py.Ok (model, log ++ (UnexpectedChild desc <$> get_properties (Id desc))).
Proof.
  intros Hgen Hprops. unfold enum_type_step. cbv zeta.
  assert (Hskip : negb force && bool_decide (is_Some (ua_dict !! BrowseName desc)) = false).
  { destruct Hgen as [->|Hnone]; [done|]. rewrite Hnone.
    rewrite bool_decide_eq_false_2 by (by intros [? ?]). by rewrite andb_false_r. }
  rewrite Hskip.
  assert (Hloop : ∀ log0,
    Py.for_each (property_step clean_name NodeId read_strings read_values desc)
      (get_properties (Id desc)) (None, log0)
    = Py.Ok (None, log0 ++ (UnexpectedChild desc <$> get_properties (Id desc)))).
  { induction Hprops as [|c cs [Hs Hv] _ IH]; intros log0.
    - simpl. by rewrite app_nil_r.
    - rewrite for_each_cons, property_step_unexpected by done. simpl.
      rewrite IH. by rewrite <- app_assoc. }
  by rewrite Hloop.
Qed.

End Properties.

(** ** The names of members and of fields *)

(** C7. The member of an enumeration: [EnumeratedValue.__init__] stores a
    member declared as [None] as [None_] and removes the spaces of every
    name, keeping the other characters in order; the member line of the
    generated class is made from the stored name through [clean_name], so
    the name in the line is never [None] and holds no space.  The field of
    a struct: the second pass names the field it builds from a declaration
    [clean_name] of the declared name, so a field declared as [None] is
    named [None_], no field is named [None], no field name holds a space,
    and the line of the field in the generated class begins with that
    name. *)
Theorem member_name_sanitized
    (get_default_value : string → gmap string Py.value → Py.res Py.value)
    (name : string) (value : Py.value) (code : string) :
  let v := EnumeratedValue.init name value in
  let renamed := if String.eqb name "None" then "None_" else name in
  let member := clean_name_spec (EnumeratedValue.Name v) in
  let field_name := clean_name_spec name in
  EnumeratedValue.new (Some name) value = Py.Ok v
  ∧ EnumeratedValue.Name (EnumeratedValue.init "None" value) = "None_"
  ∧ EnumeratedValue.Name v = Py.remove " " renamed
  ∧ String.list_ascii_of_string (EnumeratedValue.Name v)
    = filter (λ a, a ≠ " "%char) (String.list_ascii_of_string renamed)
  ∧ enum_line clean_name_spec code v
    = code +:+ ("    " +:+ member +:+ " = " +:+ Py.format value +:+ Py.nl)
  ∧ member = (if String.eqb (EnumeratedValue.Name v) "None"
              then "None_" else EnumeratedValue.Name v)
  ∧ member ≠ "None"
  ∧ Py.contains " " member = false
  ∧ clean_name_spec (EnumeratedValue.Name (EnumeratedValue.init "None" value)) = "None_"
  ∧ clean_name_spec "None" = "None_"
  ∧ field_name ≠ "None"
  ∧ Py.contains " " field_name = false
  ∧ (Py.remove " " name ≠ "None" →
     String.list_ascii_of_string field_name
     = filter (λ a, a ≠ " "%char) (String.list_ascii_of_string name))
  ∧ ∀ (enums : gmap string Py.value) (a : bool) (s : Struct.t) (x : Element)
      (r : bool * Struct.t),
      get x "Name" = Some name →
      is_real x = true →
      field_step clean_name_spec get_default_value enums (a, s) x = Py.Ok r →
      ∃ F, Struct.fields r.2 = Struct.fields s ++ [F]
        ∧ Field.name F = field_name
        ∧ (field_name ≠ "SwitchField" →
           ∃ rest, struct_line code F = code +:+ "    " +:+ field_name +:+ ":" +:+ rest).
Proof.
  cbv zeta. split_and!; try reflexivity.
  - apply remove_filter.
  - unfold clean_name_spec, EnumeratedValue.init. cbn [EnumeratedValue.Name].
    by rewrite remove_remove.
  - apply clean_name_spec_not_None.
  - apply clean_name_spec_no_space.
  - apply clean_name_spec_not_None.
  - apply clean_name_spec_no_space.
  - intros Hne%String.eqb_neq. unfold clean_name_spec. rewrite Hne. apply remove_filter.
  - intros enums a s x r Hname Hreal Hstep.
    apply field_step_cases in Hstep
      as [[? _] | (_ & _ & n & t & v0 & Hn & _ & _ & Heq)]; [congruence|].
    cbv zeta in Heq. rewrite Hname in Hn. injection Hn as <-. subst r. cbn [snd Struct.fields].
    eexists. split; [reflexivity|]. split; [reflexivity|].
    intros Hswitch. rewrite struct_line_app, struct_line_text by done.
    cbn [Field.name Field.is_optional].
    destruct (negb (String.eqb (get_or x "SwitchField" "") "")).
    + eexists. rewrite !str_app_assoc. reflexivity.
    + eexists. rewrite !str_app_assoc. reflexivity.
Qed.

(** * The properties on the examples *)

(** C1: the load of [Color_enum] and then [Broken_enum] into an empty
    namespace raises on the second, after the first was executed. *)
Lemma failed_load_keeps_earlier_entries_witness :
  let model := [AnEnum Color_enum; AnEnum Broken_enum] in
  let e := Py.ExecError (enum_get_code clean_identifier Broken_enum) in
  let r := _generate_python_class clean_identifier exec_Color model (Some ∅) ∅ in
  raised r = Some e
  ∧ ∃ pre element post,
      let before := exec_each clean_identifier exec_Color pre (add_libraries ∅) in
      model = pre ++ element :: post
      ∧ raised before = None
      ∧ exec_Color (get_code clean_identifier element).1 (namespace before)
        = Failed (namespace r)
      ∧ e = Py.ExecError (get_code clean_identifier element).1.
Proof.
  cbv zeta. split; [vm_compute; reflexivity|].
  apply (failed_load_keeps_earlier_entries clean_identifier exec_Color
           [AnEnum Color_enum; AnEnum Broken_enum] (Some ∅) ∅).
  vm_compute; reflexivity.
Defined.

(** C1 as the specification has it fails: after that failed load the
    namespace binds [Color], which it did not bind before. *)
Lemma load_not_atomic : ¬ atomic_load clean_identifier exec_Color.
Proof.
  intros H.
  specialize (H [AnEnum Color_enum; AnEnum Broken_enum] ∅ (AnEnum Color_enum)).
  cbv zeta in H.
  assert (Hraised : is_Some (raised (_generate_python_class clean_identifier exec_Color
                               [AnEnum Color_enum; AnEnum Broken_enum] (Some ∅) ∅))).
  { vm_compute. eauto. }
  specialize (H Hraised (list_elem_of_here _ _)).
  vm_compute in H. discriminate H.
Qed.



(** C4 on [Line]: [NoOfPoints] has no field, [Points] is an array, [X] is
    not. *)
Lemma array_marker_consumed_witness :
  Py.for_each (field_step clean_identifier default_zero ∅) Line_children
    (false, Struct.mk "Line" [] None 0) = Py.Ok (false, Line_struct)
  ∧ (∃ F n, get Points_field "Name" = Some n
       ∧ Struct.fields Line_struct !! 0 = Some F
       ∧ Field.name F = clean_identifier n
       ∧ Field.array F = true
       ∧ Field.value F = Py.Str "field(default_factory=list)")
  ∧ (∃ F n t, get X_field "Name" = Some n ∧ resolved_type X_field = Some t
       ∧ Struct.fields Line_struct !! 1 = Some F
       ∧ Field.name F = clean_identifier n
       ∧ Field.array F = false
       ∧ default_zero (clean_identifier t) ∅ = Py.Ok (Field.value F)).
Proof.
  assert (Hrun : Py.for_each (field_step clean_identifier default_zero ∅) Line_children
                   (false, Struct.mk "Line" [] None 0) = Py.Ok (false, Line_struct))
    by (vm_compute; reflexivity).
  destruct (array_marker_consumed clean_identifier default_zero ∅ "Line"
              Line_children false Line_struct Hrun) as (_ & _ & Harray & Hreset).
  split; [exact Hrun|]. split.
  - apply (Harray [] NoOfPoints_field [] Points_field [X_field]).
    + reflexivity.
    + vm_compute; reflexivity.
    + constructor.
    + vm_compute; reflexivity.
  - apply (Hreset [NoOfPoints_field] Points_field [] X_field []).
    + reflexivity.
    + vm_compute; reflexivity.
    + constructor.
    + vm_compute; reflexivity.
Defined.


(** C6 on a document that declares [Flag] before [Color]: the model has
    [Color] first. *)
Lemma enums_before_structs_witness :
  let model := [AnEnum Color_enum; AStruct Flag_struct] in
  _make_model clean_identifier default_zero Flag_Color_document [] = Py.Ok model
  ∧ ∀ i j e s, model !! i = Some (AnEnum e) → model !! j = Some (AStruct s) → i < j.
Proof.
  cbv zeta. split; [vm_compute; reflexivity|].
  apply (enums_before_structs clean_identifier default_zero Flag_Color_document).
  vm_compute; reflexivity.
Defined.

(** C7 on a field declared as [None], and on one declared with a space. *)
Lemma member_name_sanitized_witness :
  let x := xml "opc:Field" [("Name", "None"); ("TypeName", "opc:Int32")] [] in
  let y := xml "opc:Field" [("Name", "Set Point"); ("TypeName", "opc:Int32")] [] in
  let s := Struct.mk "Valve" [] None 0 in
  (get x "Name" = Some "None" ∧ is_real x = true
   ∧ field_step clean_name_spec default_zero ∅ (false, s) x
     = Py.Ok (false, Struct.set_fields s
                       [Field.mk "None_" (Py.Str "Int32") (Py.Str "0") false false]))
  ∧ (get y "Name" = Some "Set Point" ∧ is_real y = true
     ∧ field_step clean_name_spec default_zero ∅ (false, s) y
       = Py.Ok (false, Struct.set_fields s
                         [Field.mk "SetPoint" (Py.Str "Int32") (Py.Str "0") false false]))
  ∧ (∃ F, [Field.mk "None_" (Py.Str "Int32") (Py.Str "0") false false] = [] ++ [F]
       ∧ Field.name F = "None_"
       ∧ ∃ rest, struct_line "" F = "" +:+ "    " +:+ "None_" +:+ ":" +:+ rest)
  ∧ (∃ F, [Field.mk "SetPoint" (Py.Str "Int32") (Py.Str "0") false false] = [] ++ [F]
       ∧ Field.name F = "SetPoint"
       ∧ ∃ rest, struct_line "" F = "" +:+ "    " +:+ "SetPoint" +:+ ":" +:+ rest).
Proof.
  cbv zeta.
  split; [split_and!; vm_compute; reflexivity|].
  split; [split_and!; vm_compute; reflexivity|].
  split.
  - destruct (member_name_sanitized default_zero "None" Py.None_ "")
      as (_ & _ & _ & _ & _ & _ & _ & _ & _ & _ & _ & _ & _ & Hfield).
    destruct (Hfield ∅ false (Struct.mk "Valve" [] None 0)
                (xml "opc:Field" [("Name", "None"); ("TypeName", "opc:Int32")] [])
                (false, Struct.set_fields (Struct.mk "Valve" [] None 0)
                          [Field.mk "None_" (Py.Str "Int32") (Py.Str "0") false false]))
      as (F & HF & Hname & Hline); [vm_compute; reflexivity..|].
    exists F. split; [exact HF|]. split; [exact Hname|]. apply Hline. discriminate.
  - destruct (member_name_sanitized default_zero "Set Point" Py.None_ "")
      as (_ & _ & _ & _ & _ & _ & _ & _ & _ & _ & _ & _ & _ & Hfield).
    destruct (Hfield ∅ false (Struct.mk "Valve" [] None 0)
                (xml "opc:Field" [("Name", "Set Point"); ("TypeName", "opc:Int32")] [])
                (false, Struct.set_fields (Struct.mk "Valve" [] None 0)
                          [Field.mk "SetPoint" (Py.Str "Int32") (Py.Str "0") false false]))
      as (F & HF & Hname & Hline); [vm_compute; reflexivity..|].
    exists F. split; [exact HF|]. split; [exact Hname|]. apply Hline. discriminate.
Defined.

(** C8 on a node whose first child is not in the type map: [Extra], which
    has a description reference, and [Unbound], which has none. *)
Lemma unmatched_descriptor_skipped_witness :
  let run := register_children clean_identifier nat pretty example_references
               example_structs_dict in
  let class := Py.Class (struct_get_code Flag_struct).1 in
  example_structs_dict !! clean_identifier "Extra" = None
  ∧ example_structs_dict !! clean_identifier "Unbound" = None
  ∧ run ([] ++ Desc "Extra" 1 :: [Desc "Flag" 2]) ([AStruct Flag_struct], [])
    = ([AStruct (Struct.set_typeid Flag_struct "12")],
       [Warning "Extra is found as child of binary definition node but is not found in xml";
        Register "Flag" 12 class])
  ∧ run ([] ++ Desc "Unbound" 3 :: [Desc "Flag" 2]) ([AStruct Flag_struct], [])
    = ([AStruct (Struct.set_typeid Flag_struct "12")], [Register "Flag" 12 class]).
Proof.
  cbv zeta.
  assert (Hextra : example_structs_dict !! clean_identifier (BrowseName (Desc "Extra" 1)) = None)
    by (vm_compute; reflexivity).
  assert (Hunbound : example_structs_dict !! clean_identifier (BrowseName (Desc "Unbound" 3))
                     = None)
    by (vm_compute; reflexivity).
  split; [exact Hextra|]. split; [exact Hunbound|]. split.
  - refine (eq_trans
              (proj1 (proj2 (proj2
                 (unmatched_descriptor_skipped clean_identifier nat pretty example_references
                    example_structs_dict [] [Desc "Flag" 2] (Desc "Extra" 1)
                    ([AStruct Flag_struct], []) Hextra)))) _).
    vm_compute; reflexivity.
  - refine (eq_trans
              (proj1 (proj2 (proj2
                 (unmatched_descriptor_skipped clean_identifier nat pretty example_references
                    example_structs_dict [] [Desc "Flag" 2] (Desc "Unbound" 3)
                    ([AStruct Flag_struct], []) Hunbound)))) _).
    vm_compute; reflexivity.
Defined.

(** C8 as the specification has it fails: [Unbound] is not in the type map
    and the server gives it no description reference, so it is passed over
    without a warning. *)
Lemma mismatch_not_logged :
  ¬ mismatch_logged clean_identifier pretty example_references.
Proof.
  intros H.
  destruct (H example_structs_dict (Desc "Unbound" 3) ([], [])) as [message Hstep];
    [vm_compute; reflexivity|].
  vm_compute in Hstep. discriminate Hstep.
Qed.

(** C10 on [Options_struct]: the second text is not the first. *)
Lemma get_code_not_idempotent_witness :
  0 < Struct.option_counter Options_struct
  ∧ Struct.fields (struct_get_code (struct_get_code Options_struct).2).2
    = encoding_field :: encoding_field :: Struct.fields Options_struct
  ∧ (struct_get_code (struct_get_code Options_struct).2).1
    ≠ (struct_get_code Options_struct).1.
Proof.
  assert (Hpos : 0 < Struct.option_counter Options_struct) by (vm_compute; lia).
  destruct (get_code_not_idempotent Options_struct Hpos) as (_ & Hfields & _ & _ & Hne).
  split; [exact Hpos|]. split; [exact Hfields | exact Hne].
Defined.

(** * The further properties on the examples *)

Lemma get_code_times_fields_witness :
  0 < Struct.option_counter Options_struct
  ∧ get_code_times 3 Options_struct
    = Struct.mk "Options"
        (replicate 3 encoding_field ++ Struct.fields Options_struct) None 2.
Proof.
  split; [vm_compute; lia|].
  apply (get_code_times_fields 3 Options_struct). vm_compute; lia.
Defined.

Lemma option_counter_counts_witness :
  Py.endswith (tag Switch_type) "StructuredType" = true
  ∧ struct_step clean_identifier default_zero ∅ [] Switch_type = Py.Ok [AStruct Switch_struct]
  ∧ ∃ s, [AStruct Switch_struct] = [] ++ [AStruct s]
      ∧ Struct.option_counter s
        = length (filter (λ f, Field.is_optional f = true) (Struct.fields s))
      ∧ Struct.typeid s = None.
Proof.
  split; [vm_compute; reflexivity|]. split; [vm_compute; reflexivity|].
  apply (option_counter_counts clean_identifier default_zero ∅ [] [AStruct Switch_struct]
           Switch_type); vm_compute; reflexivity.
Defined.

Lemma enum_members_in_order_witness :
  Py.endswith (tag Color_type) "EnumeratedType" = true
  ∧ enum_step clean_identifier ([], ∅) Color_type
    = Py.Ok ([AnEnum Color_enum], {["Color" := Py.Str "1"]})
  ∧ ∃ raw, get Color_type "Name" = Some raw
      ∧ [AnEnum Color_enum]
        = [] ++ [AnEnum
                   (EnumType.mk (clean_identifier raw)
                      ((λ x, EnumeratedValue.init (default "" (get x "Name"))
                               (value_of (get x "Value")))
                         <$> filter (λ x, is_EnumeratedValue x = true) (children Color_type))
                      None)].
Proof.
  split; [vm_compute; reflexivity|]. split; [vm_compute; reflexivity|].
  apply (enum_members_in_order clean_identifier [] [AnEnum Color_enum] ∅
           {["Color" := Py.Str "1"]} Color_type); vm_compute; reflexivity.
Defined.

Lemma enum_default_is_last_value_witness :
  Py.endswith (tag Color_type) "EnumeratedType" = true
  ∧ enum_step clean_identifier ([], ∅) Color_type
    = Py.Ok ([AnEnum Color_enum], {["Color" := Py.Str "1"]})
  ∧ ∃ raw, get Color_type "Name" = Some raw
      ∧ ({["Color" := Py.Str "1"]} : gmap string Py.value) !! raw
        = match last (filter (λ x, is_EnumeratedValue x = true) (children Color_type)) with
          | Some x => Some (value_of (get x "Value"))
          | None => (∅ : gmap string Py.value) !! raw
          end
      ∧ ∀ key, key ≠ raw →
          ({["Color" := Py.Str "1"]} : gmap string Py.value) !! key
          = (∅ : gmap string Py.value) !! key.
Proof.
  split; [vm_compute; reflexivity|]. split; [vm_compute; reflexivity|].
  apply (enum_default_is_last_value clean_identifier [] [AnEnum Color_enum] ∅
           {["Color" := Py.Str "1"]} Color_type); vm_compute; reflexivity.
Defined.

Lemma local_type_strips_prefix_witness :
  Py.contains ":" "opc" = false
  ∧ Py.contains ":" "Int32" = false
  ∧ local_type "opc:Int32" = Py.Ok "Int32"
  ∧ local_type "opc:Int32:x" = Py.Ok "Int32".
Proof.
  split; [reflexivity|]. split; [reflexivity|].
  destruct (local_type_strips_prefix "opc" "Int32" "x" eq_refl eq_refl) as (_ & H2 & H3).
  split; [exact H2 | exact H3].
Defined.

Lemma set_typeid_first_match_witness :
  ("Flag" ∉ entry_name <$> [AnEnum Color_enum])
  ∧ entry_name (AStruct Flag_struct) = "Flag"
  ∧ ∃ x', set_typeid ([AnEnum Color_enum] ++ AStruct Flag_struct :: [AStruct Flag_struct])
            "Flag" "ns=2;i=7"
          = [AnEnum Color_enum] ++ x' :: [AStruct Flag_struct]
      ∧ entry_typeid x' = Some "ns=2;i=7"
      ∧ forget_typeid x' = forget_typeid (AStruct Flag_struct).
Proof.
  assert (H : "Flag" ∉ entry_name <$> [AnEnum Color_enum]).
  { simpl. intros [H|H]%elem_of_cons; [discriminate H | by apply elem_of_nil in H]. }
  split; [exact H|]. split; [reflexivity|].
  apply (set_typeid_first_match [AnEnum Color_enum] [AStruct Flag_struct]
           (AStruct Flag_struct) "Flag" "ns=2;i=7" H eq_refl).
Defined.

Lemma set_typeid_enum_shadows_struct_witness :
  let e := EnumType.mk "Flag" [] None in
  (EnumType.name e ∉ entry_name <$> [AnEnum Color_enum])
  ∧ set_typeid ([AnEnum Color_enum] ++ AnEnum e :: [AStruct Flag_struct]) "Flag" "ns=2;i=7"
    = [AnEnum Color_enum] ++ AnEnum (EnumType.set_typeid e "ns=2;i=7") :: [AStruct Flag_struct]
  ∧ _make_registration
      (set_typeid ([AnEnum Color_enum] ++ AnEnum e :: [AStruct Flag_struct]) "Flag" "ns=2;i=7")
    = _make_registration ([AnEnum Color_enum] ++ AnEnum e :: [AStruct Flag_struct]).
Proof.
  cbv zeta.
  assert (H : EnumType.name (EnumType.mk "Flag" [] None) ∉ entry_name <$> [AnEnum Color_enum]).
  { simpl. intros [H|H]%elem_of_cons; [discriminate H | by apply elem_of_nil in H]. }
  split; [exact H|].
  destruct (set_typeid_enum_shadows_struct [AnEnum Color_enum] [AStruct Flag_struct]
              (EnumType.mk "Flag" [] None) "ns=2;i=7" H) as (H1 & _ & H3).
  split; [exact H1 | exact H3].
Defined.

Lemma descriptor_without_reference_ignored_witness :
  example_references (Id (Desc "Unbound" 3)) = []
  ∧ register_children clean_identifier nat pretty example_references example_structs_dict
      ([Desc "Extra" 1] ++ Desc "Unbound" 3 :: [Desc "Flag" 2]) ([AStruct Flag_struct], [])
    = register_children clean_identifier nat pretty example_references example_structs_dict
        ([Desc "Extra" 1] ++ [Desc "Flag" 2]) ([AStruct Flag_struct], []).
Proof.
  split; [reflexivity|].
  apply (descriptor_without_reference_ignored clean_identifier nat pretty example_references
           example_structs_dict [Desc "Extra" 1] [Desc "Flag" 2] (Desc "Unbound" 3)).
  reflexivity.
Defined.

Lemma matched_descriptor_bound_witness :
  example_references (Id (Desc "Flag" 2)) = [Desc "Default Binary" 12]
  ∧ example_structs_dict !! clean_identifier (BrowseName (Desc "Flag" 2))
    = Some (Py.Class (struct_get_code Flag_struct).1)
  ∧ (clean_identifier (BrowseName (Desc "Flag" 2)) ∉ entry_name <$> [AnEnum Color_enum])
  ∧ ∃ x', register_child clean_identifier nat pretty example_references example_structs_dict
            ([AnEnum Color_enum] ++ AStruct Flag_struct :: [], []) (Desc "Flag" 2)
          = ([AnEnum Color_enum] ++ x' :: [],
             [] ++ [Register "Flag" 12 (Py.Class (struct_get_code Flag_struct).1)])
      ∧ entry_typeid x' = Some (pretty 12)
      ∧ forget_typeid x' = forget_typeid (AStruct Flag_struct).
Proof.
  assert (H : clean_identifier (BrowseName (Desc "Flag" 2)) ∉ entry_name <$> [AnEnum Color_enum]).
  { simpl. intros [H|H]%elem_of_cons; [discriminate H | by apply elem_of_nil in H]. }
  assert (Hclass : example_structs_dict !! clean_identifier (BrowseName (Desc "Flag" 2))
                   = Some (Py.Class (struct_get_code Flag_struct).1))
    by (vm_compute; reflexivity).
  split; [reflexivity|]. split; [exact Hclass|]. split; [exact H|].
  apply (matched_descriptor_bound clean_identifier nat pretty example_references
           example_structs_dict [AnEnum Color_enum] [] (AStruct Flag_struct) []
           (Desc "Flag" 2) (Desc "Default Binary" 12) [] _ eq_refl Hclass H eq_refl).
Defined.

Lemma load_renders_each_entry_once_witness :
  let model := [AnEnum Color_enum; AStruct Options_struct] in
  let r := _generate_python_class clean_identifier exec_Color_Options model (Some ∅) ∅ in
  raised r = None
  ∧ model_after r = (λ x, (get_code clean_identifier x).2) <$> model.
Proof.
  cbv zeta. split; [vm_compute; reflexivity|].
  apply (load_renders_each_entry_once clean_identifier exec_Color_Options
           [AnEnum Color_enum; AStruct Options_struct] (Some ∅) ∅).
  vm_compute; reflexivity.
Defined.

Lemma load_in_two_parts_witness :
  let r1 := exec_each clean_identifier exec_Color_Options [AnEnum Color_enum] ∅ in
  let r2 := exec_each clean_identifier exec_Color_Options [AnEnum Broken_enum] (namespace r1) in
  raised r1 = None
  ∧ exec_each clean_identifier exec_Color_Options ([AnEnum Color_enum] ++ [AnEnum Broken_enum]) ∅
    = Loaded (namespace r2) (model_after r1 ++ model_after r2) (raised r2).
Proof.
  cbv zeta. split; [vm_compute; reflexivity|].
  apply (load_in_two_parts clean_identifier exec_Color_Options
           [AnEnum Color_enum] [AnEnum Broken_enum] ∅).
  vm_compute; reflexivity.
Defined.

Lemma saved_text_after_load_witness :
  let model := [AnEnum Color_enum; AStruct Options_struct] in
  let r := exec_each clean_identifier exec_Color_Options model ∅ in
  raised r = None
  ∧ ∀ s, AStruct s ∈ model → 0 < Struct.option_counter s →
      (get_code clean_identifier (get_code clean_identifier (AStruct s)).2).1
      ≠ (get_code clean_identifier (AStruct s)).1.
Proof.
  cbv zeta.
  assert (H : raised (exec_each clean_identifier exec_Color_Options
                        [AnEnum Color_enum; AStruct Options_struct] ∅) = None)
    by (vm_compute; reflexivity).
  split; [exact H|].
  exact (proj2 (saved_text_after_load clean_identifier exec_Color_Options nat pretty
                  example_references [AnEnum Color_enum; AStruct Options_struct] ∅
                  example_structs_dict example_children [] true H)).
Defined.

Lemma load_enums_all_known_witness :
  let ua_dict : gmap string Py.object := {["Color" := Py.Class "Color"]} in
  Forall (λ d : Description nat, is_Some (ua_dict !! BrowseName d)) [Desc "Color" 1]
  ∧ load_enums clean_identifier exec_Color_Options nat [Desc "Color" 1]
      (λ _, []) (λ _, []) (λ _, []) None false ua_dict
    = Py.Ok (Loaded (add_libraries ua_dict) [] None, [AlreadyKnown "Color"]).
Proof.
  cbv zeta.
  assert (H : Forall (λ d : Description nat,
                 is_Some (({["Color" := Py.Class "Color"]} : gmap string Py.object)
                            !! BrowseName d)) [Desc "Color" 1]).
  { constructor; [|constructor]. vm_compute. by eexists. }
  split; [exact H|].
  apply (load_enums_all_known clean_identifier exec_Color_Options nat [Desc "Color" 1]
           (λ _, []) (λ _, []) (λ _, []) None {["Color" := Py.Class "Color"]} H).
Defined.

Lemma enum_without_values_left_out_witness :
  let properties : nat → list (Description nat) := λ _, [Desc "Other" 6] in
  (true = true ∨ (∅ : gmap string Py.object) !! BrowseName (Desc "Mode" 5) = None)
  ∧ Forall (λ c : Description nat,
              BrowseName c ≠ "EnumStrings" ∧ BrowseName c ≠ "EnumValues")
      (properties (Id (Desc "Mode" 5)))
  ∧ enum_type_step clean_identifier nat properties (λ _, []) (λ _, [])
      true ∅ ([], []) (Desc "Mode" 5)
    = Py.Ok ([], [] ++ (UnexpectedChild (Desc "Mode" 5) <$> properties (Id (Desc "Mode" 5)))).
Proof.
  cbv zeta.
  assert (H : Forall (λ c : Description nat,
                        BrowseName c ≠ "EnumStrings" ∧ BrowseName c ≠ "EnumValues")
                [Desc "Other" 6]).
  { constructor; [|constructor]. split; discriminate. }
  split; [by left|]. split; [exact H|].
  apply (enum_without_values_left_out clean_identifier nat (λ _, [Desc "Other" 6])
           (λ _, []) (λ _, []) true ∅ [] [] (Desc "Mode" 5) (or_introl eq_refl) H).
Defined.
